(** * IBAN validation, conversion and check-digit generation

    A shallow embedding of the library's three modules
    ([utils], [specification], [iban]) and of its country table,
    followed by the properties established about them.

    JavaScript strings are sequences of 16-bit code units; they are
    modelled as lists of code units, each an integer.  Numbers are either
    [NaN] or an integer: every number the library computes is one of the
    two.  A call either returns, throws, or exhausts the fuel of the one
    unbounded loop of the library. *)

From Stdlib Require Import ZArith List Bool Lia String Ascii.
Import ListNotations.
Open Scope Z_scope.

(** ** Strings *)

Definition jsstring := list Z.

(** A string literal, as the list of its code units. *)
Definition js (s : string) : jsstring :=
  map (fun a => Z.of_N (N_of_ascii a)) (list_ascii_of_string s).

Definition in_range (lo hi c : Z) : bool := (lo <=? c) && (c <=? hi).

Definition is_digit (c : Z) : bool := in_range 48 57 c.
Definition is_upper (c : Z) : bool := in_range 65 90 c.
Definition is_lower (c : Z) : bool := in_range 97 122 c.
Definition is_alnum (c : Z) : bool := is_digit c || is_upper c || is_lower c.
Definition is_normal (c : Z) : bool := is_digit c || is_upper c.

(** A normalized string, in electronic format: digits and upper-case
    letters only. *)
Definition normalized (s : jsstring) : Prop :=
  Forall (fun c => is_normal c = true) s.

Fixpoint str_eqb (a b : jsstring) : bool :=
  match a, b with
  | [], [] => true
  | x :: a', y :: b' => (x =? y) && str_eqb a' b'
  | _, _ => false
  end.

Definition len (s : jsstring) : Z := Z.of_nat (List.length s).

(** [s.slice(start, end)]; [fin = None] is the call with one argument.
    A negative index counts from the end, and both are clamped. *)
Definition clamp_index (n i : Z) : Z :=
  if i <? 0 then Z.max (n + i) 0 else Z.min i n.

Definition slice (start : Z) (fin : option Z) (s : jsstring) : jsstring :=
  let n := len s in
  let from := clamp_index n start in
  let to := match fin with None => n | Some e => clamp_index n e end in
  firstn (Z.to_nat (to - from)) (skipn (Z.to_nat from) s).

(** [s.toUpperCase()] on the code units below 128, where it is the map
    from [a-z] to [A-Z].  Unicode gives some code units from 128 upward
    an upper case of another length; they are left as they are here.
    [electronicFormat] applies the function to what [NON_ALPHANUM] kept,
    which is below 128, and the statements about [iso13616Prepare] are
    about strings of digits and of letters of [A-Za-z]. *)
Definition upper_unit (c : Z) : Z := if is_lower c then c - 32 else c.
Definition toUpperCase (s : jsstring) : jsstring := map upper_unit s.

(** Line terminators, which [.] does not match in a regular expression. *)
Definition is_line_terminator (c : Z) : bool :=
  (c =? 10) || (c =? 13) || (c =? 8232) || (c =? 8233).
Definition dot (c : Z) : bool := negb (is_line_terminator c).

(** [array.join(separator)] on an array of strings. *)
Fixpoint join (separator : jsstring) (parts : list jsstring) : jsstring :=
  match parts with
  | [] => []
  | [p] => p
  | p :: rest => p ++ separator ++ join separator rest
  end.

(** ** Numbers *)

Inductive number := NaN | Num (z : Z).

Definition number_eqb (a b : number) : bool :=
  match a, b with
  | Num x, Num y => x =? y
  | _, _ => false
  end.

(** [a % m] for an integer [m]: the sign follows the dividend. *)
Definition js_rem (a : number) (m : Z) : number :=
  match a with NaN => NaN | Num z => Num (Z.rem z m) end.

(** [a + k]. *)
Definition js_add (a : number) (k : Z) : number :=
  match a with NaN => NaN | Num z => Num (z + k) end.

(** [k - a]. *)
Definition js_sub (k : Z) (a : number) : number :=
  match a with NaN => NaN | Num z => Num (k - z) end.

Definition decimal_value (digits : jsstring) : Z :=
  fold_left (fun acc c => 10 * acc + (c - 48)) digits 0.

(** White space skipped at the start of the argument of [parseInt]. *)
Definition is_white_space (c : Z) : bool :=
  (c =? 9) || (c =? 10) || (c =? 11) || (c =? 12) || (c =? 13) || (c =? 32)
  || (c =? 160) || (c =? 5760) || in_range 8192 8202 c || (c =? 8232)
  || (c =? 8233) || (c =? 8239) || (c =? 8287) || (c =? 12288)
  || (c =? 65279).

Fixpoint trim_start (s : jsstring) : jsstring :=
  match s with
  | c :: r => if is_white_space c then trim_start r else s
  | [] => []
  end.

Fixpoint take_digits (s : jsstring) : jsstring :=
  match s with
  | c :: r => if is_digit c then c :: take_digits r else []
  | [] => []
  end.

(** [Number.parseInt(s, 10)]: white space, an optional sign, then the
    longest prefix of decimal digits; [NaN] when that prefix is empty.
    The library calls it on at most 9 code units, where the value is
    exact in a double. *)
Definition parseInt (s : jsstring) : number :=
  let t := trim_start s in
  let '(sign, u) :=
    match t with
    | c :: r => if c =? 45 then (-1, r) else if c =? 43 then (1, r) else (1, t)
    | [] => (1, t)
    end in
  match take_digits u with
  | [] => NaN
  | ds => Num (sign * decimal_value ds)
  end.

Fixpoint digits_fuel (fuel : nat) (n : Z) (acc : jsstring) : jsstring :=
  match fuel with
  | O => acc
  | S f =>
      let acc' := (48 + n mod 10) :: acc in
      if n <? 10 then acc' else digits_fuel f (n / 10) acc'
  end.

(** The decimal digits of a natural number; a number has no more decimal
    digits than binary ones. *)
Definition decimal_digits (n : Z) : jsstring :=
  digits_fuel (S (Z.to_nat (Z.log2 n))) n [].

(** [String(x)], also what a template literal does with a number. *)
Definition toString (x : number) : jsstring :=
  match x with
  | NaN => js "NaN"
  | Num z => if z <? 0 then 45 :: decimal_digits (- z) else decimal_digits z
  end.

(** ** Outcomes of a call *)

Inductive exn :=
| Error (message : jsstring)
| TypeError.

Inductive outcome (A : Type) :=
| Return (a : A)
| Throw (e : exn)
| OutOfFuel.
Arguments Return {A} a.
Arguments Throw {A} e.
Arguments OutOfFuel {A}.

Definition bind {A B} (m : outcome A) (k : A -> outcome B) : outcome B :=
  match m with
  | Return a => k a
  | Throw e => Throw e
  | OutOfFuel => OutOfFuel
  end.

Notation "'let*' x ':=' m 'in' k" := (bind m (fun x => k))
  (at level 10, x name, m at level 100, k at level 200).

(** [a && b] where evaluating [b] may throw: [b] is not evaluated when
    [a] is false. *)
Definition and_then (a : bool) (b : outcome bool) : outcome bool :=
  if a then b else Return false.

(** [try { body } catch { return false; }]: whatever is thrown is
    caught. *)
Definition try_catch_false (body : outcome bool) : outcome bool :=
  match body with
  | Throw _ => Return false
  | other => other
  end.

(** ** utils *)

Definition A_CODE_POINT_AT : Z := 65.

(** The code units [lo], ..., [hi]. *)
Definition range_units (lo hi : Z) : list Z :=
  map (fun i => lo + Z.of_nat i) (seq 0 (Z.to_nat (hi - lo + 1))).

(** Canonicalization of a code unit under the flag [i] without the flag
    [u]: the upper case of the unit, unless that is several units or
    takes a unit from 128 upward to one below 128.  Below 128 this is
    [upper_unit]; a unit from 128 upward stays at or above 128, so that
    it is never the canonical form of a digit or of a letter of
    [a-z]. *)
Definition canonicalize (c : Z) : Z := upper_unit c.

(** [/[^\da-z]/gi] on one code unit: the class holds [\d] and [a-z], it
    is negated, and membership is tested on canonical forms. *)
Definition NON_ALPHANUM (c : Z) : bool :=
  negb (existsb (fun a => canonicalize a =? canonicalize c)
          (range_units 48 57 ++ range_units 97 122)).

(** Types a caller can pass where the declared type is [string]. *)
Inductive value :=
| VString (s : jsstring)
| VStringObject (s : jsstring)
| VNumber (n : number)
| VBoolean (b : bool)
| VUndefined
| VNull
| VObject.

Definition isString (v : value) : bool :=
  match v with
  | VString _ | VStringObject _ => true
  | _ => false
  end.

(** The code units of a value for which [isString] holds. *)
Definition string_of (v : value) : jsstring :=
  match v with
  | VString s | VStringObject s => s
  | _ => []
  end.

(** ** specification: the structure compiler *)

(** One group [([format]{repeats})] of the compiled expression;
    [format = None] is the variable left [undefined] by the [switch]. *)
Record group := { format : option jsstring; repeats : number }.

(** The expression [^ group ... group $]. *)
Definition RegExp := list group.

(** [structure.match(/.{3}/g)]: the successive runs of three code units
    none of which is a line terminator, scanning from the left. *)
Fixpoint match_blocks (s : jsstring) : list jsstring :=
  match s with
  | [] => []
  | a :: tl =>
      match tl with
      | b :: c :: rest =>
          if dot a && dot b && dot c
          then [a; b; c] :: match_blocks rest
          else match_blocks tl
      | _ => []
      end
  end.

(** [match] gives [null] rather than an empty array. *)
Definition String_match_blocks (s : jsstring) : option (list jsstring) :=
  match match_blocks s with
  | [] => None
  | blocks => Some blocks
  end.

(** The [switch] on [pattern]; without a [default] case, [format] stays
    [undefined] for any other pattern. *)
Definition switch_format (pattern : jsstring) : option jsstring :=
  if str_eqb pattern (js "A") then Some (js "0-9A-Za-z")
  else if str_eqb pattern (js "B") then Some (js "0-9A-Z")
  else if str_eqb pattern (js "C") then Some (js "A-Za-z")
  else if str_eqb pattern (js "F") then Some (js "0-9")
  else if str_eqb pattern (js "L") then Some (js "a-z")
  else if str_eqb pattern (js "U") then Some (js "A-Z")
  else if str_eqb pattern (js "W") then Some (js "0-9a-z")
  else None.

(** The callback of [map], on a block of three code units; [block[0]] is
    its first code unit, as a string. *)
Definition parse_block (block : jsstring) : group :=
  let pattern := slice 0 (Some 1) block in
  let repeats := parseInt (slice 1 None block) in
  let format := switch_format pattern in
  {| format := format; repeats := repeats |}.

Definition parseStructure (structure : jsstring) : outcome RegExp :=
  match option_map (map parse_block) (String_match_blocks structure) with
  | None =>
      Throw (Error (js "Something went wrong while parsing the structure"))
  | Some regex => Return regex
  end.

(** *** Matching the compiled expression *)

(** What the template literal puts between the brackets. *)
Definition template_format (f : option jsstring) : jsstring :=
  match f with
  | Some s => s
  | None => js "undefined"
  end.

(** Membership in the class [[cls]], for a class made of ranges [a-b]
    and single characters. *)
Fixpoint class_member (cls : jsstring) (c : Z) : bool :=
  match cls with
  | [] => false
  | a :: tl =>
      match tl with
      | d :: b :: rest =>
          if d =? 45 then in_range a b c || class_member rest c
          else (c =? a) || class_member tl c
      | _ => (c =? a) || class_member tl c
      end
  end.

(** [{repeats}] is a quantifier when [repeats] prints as decimal digits. *)
Definition quantifier_count (r : number) : option nat :=
  match r with
  | Num z => if 0 <=? z then Some (Z.to_nat z) else None
  | NaN => None
  end.

Fixpoint take_class (cls : jsstring) (n : nat) (s : jsstring)
  : option (jsstring * jsstring) :=
  match n with
  | O => Some ([], s)
  | S k =>
      match s with
      | c :: r =>
          if class_member cls c then
            match take_class cls k r with
            | Some (m, rest) => Some (c :: m, rest)
            | None => None
            end
          else None
      | [] => None
      end
  end.

Fixpoint take_literal (lit s : jsstring) : option jsstring :=
  match lit with
  | [] => Some s
  | x :: lit' =>
      match s with
      | c :: r => if c =? x then take_literal lit' r else None
      | [] => None
      end
  end.

(** One group against the front of [s]: what it captures and what is
    left.  Braces that are not a quantifier ([{NaN}], [{-1}]) stand for
    themselves after one character of the class. *)
Definition match_group (g : group) (s : jsstring)
  : option (jsstring * jsstring) :=
  let cls := template_format (format g) in
  match quantifier_count (repeats g) with
  | Some n => take_class cls n s
  | None =>
      match take_class cls 1 s with
      | Some (m, rest) =>
          let lit := js "{" ++ toString (repeats g) ++ js "}" in
          match take_literal lit rest with
          | Some rest' => Some (m ++ lit, rest')
          | None => None
          end
      | None => None
      end
  end.

Fixpoint match_groups (re : RegExp) (s : jsstring) : option (list jsstring) :=
  match re with
  | [] => match s with [] => Some [] | _ => None end
  | g :: re' =>
      match match_group g s with
      | Some (m, rest) =>
          match match_groups re' rest with
          | Some caps => Some (m :: caps)
          | None => None
          end
      | None => None
      end
  end.

(** [re.exec(s)]: the whole match, then the captures. *)
Definition RegExp_exec (re : RegExp) (s : jsstring) : option (list jsstring) :=
  match match_groups re s with
  | Some caps => Some (s :: caps)
  | None => None
  end.

Definition RegExp_test (re : RegExp) (s : jsstring) : bool :=
  match RegExp_exec re s with Some _ => true | None => false end.

(** ** specification: the checksum *)

(** The [while] loop of [iso7064Mod9710].  On a string of digits every
    turn shortens [remainder], and [fuel] is its first length. *)
Fixpoint iso7064_loop (fuel : nat) (remainder : jsstring) : outcome jsstring :=
  match fuel with
  | O => if 2 <? len remainder then OutOfFuel else Return remainder
  | S f =>
      if 2 <? len remainder then
        let block := slice 0 (Some 9) remainder in
        iso7064_loop f
          (toString (js_rem (parseInt block) 97)
             ++ slice (len block) None remainder)
      else Return remainder
  end.

Definition iso7064Mod9710 (iban : jsstring) : outcome number :=
  let* remainder := iso7064_loop (List.length iban) iban in
  Return (js_rem (parseInt remainder) 97).

(** [val.replaceAll(/[A-Z]/g, f)]: [f] at each upper-case letter. *)
Definition replaceAll_upper (f : Z -> jsstring) (val : jsstring) : jsstring :=
  flat_map (fun c => if is_upper c then f c else [c]) val.

Definition iso13616Prepare (iban : jsstring) : jsstring :=
  let val := toUpperCase iban in
  let val := slice 4 None val ++ slice 0 (Some 4) val in
  replaceAll_upper
    (fun codePoint => toString (Num (codePoint - A_CODE_POINT_AT + 10))) val.

(** ** specification: the class *)

Module Specification.

Record t := {
  countryCode : jsstring;
  length : Z;
  structure : jsstring;
  example : jsstring
}.

(** The expression is compiled at the first call and kept in
    [cachedRegex].  The field is private and is only ever assigned
    [parseStructure(this.structure)], which depends on nothing else, so
    every call yields what compiling again yields; a compilation that
    throws leaves the field empty and throws again at the next call. *)
Definition regex (this : t) : outcome RegExp :=
  parseStructure (structure this).

Definition isValid (this : t) (iban : jsstring) : outcome bool :=
  and_then (length this =? len iban)
    (and_then (str_eqb (countryCode this) (slice 0 (Some 2) iban))
       (let* re := regex this in
        and_then (RegExp_test re (slice 4 None iban))
          (let* r := iso7064Mod9710 (iso13616Prepare iban) in
           Return (number_eqb r (Num 1))))).

Definition toBBAN (this : t) (iban separator : jsstring) : outcome jsstring :=
  let* re := regex this in
  match RegExp_exec re (slice 4 None iban) with
  | None => Throw (Error (js "Invalid IBAN"))
  | Some regexMatch => Return (join separator (tl regexMatch))
  end.

Definition isValidBBAN (this : t) (bban : jsstring) : outcome bool :=
  and_then (length this - 4 =? len bban)
    (let* re := regex this in Return (RegExp_test re bban)).

Definition fromBBAN (this : t) (bban : jsstring) : outcome jsstring :=
  let* valid := isValidBBAN this bban in
  if negb valid then Throw (Error (js "Invalid BBAN"))
  else
    let* remainder :=
      iso7064Mod9710
        (iso13616Prepare (countryCode this ++ js "00" ++ bban)) in
    let checkDigit :=
      slice (-2) None (js "0" ++ toString (js_sub 98 remainder)) in
    Return (countryCode this ++ checkDigit ++ bban).

End Specification.

(** ** countries *)

Definition country (countryCode : string) (length : Z)
  (structure example : string) : jsstring * Specification.t :=
  (js countryCode,
   {| Specification.countryCode := js countryCode;
      Specification.length := length;
      Specification.structure := js structure;
      Specification.example := js example |}).

Definition COUNTRIES : list (jsstring * Specification.t) := [
  country "AD" 24 "F04F04A12" "AD1200012030200359100100";
  country "AE" 23 "F03F16" "AE070331234567890123456";
  country "AL" 28 "F08A16" "AL47212110090000000235698741";
  country "AT" 20 "F05F11" "AT611904300234573201";
  country "AZ" 28 "U04A20" "AZ21NABZ00000000137010001944";
  country "BA" 20 "F03F03F08F02" "BA391290079401028494";
  country "BE" 16 "F03F07F02" "BE68539007547034";
  country "BG" 22 "U04F04F02A08" "BG80BNBG96611020345678";
  country "BH" 22 "U04A14" "BH67BMAG00001299123456";
  country "BR" 29 "F08F05F10U01A01" "BR9700360305000010009795493P1";
  country "BY" 28 "A04F04A16" "BY13NBRB3600900000002Z00AB00";
  country "CH" 21 "F05A12" "CH9300762011623852957";
  country "CR" 22 "F04F14" "CR72012300000171549015";
  country "CY" 28 "F03F05A16" "CY17002001280000001200527600";
  country "CZ" 24 "F04F06F10" "CZ6508000000192000145399";
  country "DE" 22 "F08F10" "DE89370400440532013000";
  country "DK" 18 "F04F09F01" "DK5000400440116243";
  country "DO" 28 "U04F20" "DO28BAGR00000001212453611324";
  country "EE" 20 "F02F02F11F01" "EE382200221020145685";
  country "EG" 29 "F04F04F17" "EG800002000156789012345180002";
  country "ES" 24 "F04F04F01F01F10" "ES9121000418450200051332";
  country "FI" 18 "F06F07F01" "FI2112345600000785";
  country "FO" 18 "F04F09F01" "FO6264600001631634";
  country "FR" 27 "F05F05A11F02" "FR1420041010050500013M02606";
  country "GB" 22 "U04F06F08" "GB29NWBK60161331926819";
  country "GE" 22 "U02F16" "GE29NB0000000101904917";
  country "GI" 23 "U04A15" "GI75NWBK000000007099453";
  country "GL" 18 "F04F09F01" "GL8964710001000206";
  country "GR" 27 "F03F04A16" "GR1601101250000000012300695";
  country "GT" 28 "A04A20" "GT82TRAJ01020000001210029690";
  country "HR" 21 "F07F10" "HR1210010051863000160";
  country "HU" 28 "F03F04F01F15F01" "HU42117730161111101800000000";
  country "IE" 22 "U04F06F08" "IE29AIBK93115212345678";
  country "IL" 23 "F03F03F13" "IL620108000000099999999";
  country "IS" 26 "F04F02F06F10" "IS140159260076545510730339";
  country "IT" 27 "U01F05F05A12" "IT60X0542811101000000123456";
  country "IQ" 23 "U04F03A12" "IQ98NBIQ850123456789012";
  country "JO" 30 "A04F22" "JO15AAAA1234567890123456789012";
  country "KW" 30 "U04A22" "KW81CBKU0000000000001234560101";
  country "KZ" 20 "F03A13" "KZ86125KZT5004100100";
  country "LB" 28 "F04A20" "LB62099900000001001901229114";
  country "LC" 32 "U04F24" "LC07HEMM000100010012001200013015";
  country "LI" 21 "F05A12" "LI21088100002324013AA";
  country "LT" 20 "F05F11" "LT121000011101001000";
  country "LU" 20 "F03A13" "LU280019400644750000";
  country "MC" 27 "F05F05A11F02" "MC5811222000010123456789030";
  country "MD" 24 "U02A18" "MD24AG000225100013104168";
  country "ME" 22 "F03F13F02" "ME25505000012345678951";
  country "MK" 19 "F03A10F02" "MK07250120000058984";
  country "MR" 27 "F05F05F11F02" "MR1300020001010000123456753";
  country "MT" 31 "U04F05A18" "MT84MALT011000012345MTLCAST001S";
  country "MU" 30 "U04F02F02F12F03U03" "MU17BOMM0101101030300200000MUR";
  country "NL" 18 "U04F10" "NL91ABNA0417164300";
  country "NO" 15 "F04F06F01" "NO9386011117947";
  country "PK" 24 "U04A16" "PK36SCBL0000001123456702";
  country "PL" 28 "F08F16" "PL61109010140000071219812874";
  country "PS" 29 "U04A21" "PS92PALS000000000400123456702";
  country "PT" 25 "F04F04F11F02" "PT50000201231234567890154";
  country "QA" 29 "U04A21" "QA30AAAA123456789012345678901";
  country "RO" 24 "U04A16" "RO49AAAA1B31007593840000";
  country "RS" 22 "F03F13F02" "RS35260005601001611379";
  country "SA" 24 "F02A18" "SA0380000000608010167519";
  country "SC" 31 "U04F04F16U03" "SC18SSCB11010000000000001497USD";
  country "SE" 24 "F03F16F01" "SE4550000000058398257466";
  country "SI" 19 "F05F08F02" "SI56263300012039086";
  country "SK" 24 "F04F06F10" "SK3112000000198742637541";
  country "SM" 27 "U01F05F05A12" "SM86U0322509800000000270100";
  country "ST" 25 "F08F11F02" "ST68000100010051845310112";
  country "SV" 28 "U04F20" "SV62CENR00000000000000700025";
  country "TL" 23 "F03F14F02" "TL380080012345678910157";
  country "TN" 24 "F02F03F13F02" "TN5910006035183598478831";
  country "TR" 26 "F05F01A16" "TR330006100519786457841326";
  country "UA" 29 "F25" "UA511234567890123456789012345";
  country "VA" 22 "F18" "VA59001123000012345678";
  country "VG" 24 "U04F16" "VG96VPVG0000012345678901";
  country "XK" 20 "F04F10F02" "XK051212012345678906";
  country "AO" 25 "F21" "AO69123456789012345678901";
  country "BF" 27 "F23" "BF2312345678901234567890123";
  country "BI" 16 "F12" "BI41123456789012";
  country "BJ" 28 "F24" "BJ39123456789012345678901234";
  country "CI" 28 "U02F22" "CI70CI1234567890123456789012";
  country "CM" 27 "F23" "CM9012345678901234567890123";
  country "CV" 25 "F21" "CV30123456789012345678901";
  country "DZ" 24 "F20" "DZ8612345678901234567890";
  country "IR" 26 "F22" "IR861234568790123456789012";
  country "MG" 27 "F23" "MG1812345678901234567890123";
  country "ML" 28 "U01F23" "ML15A12345678901234567890123";
  country "MZ" 25 "F21" "MZ25123456789012345678901";
  country "SN" 28 "U01F23" "SN52A12345678901234567890123";
  country "GF" 27 "F05F05A11F02" "GF121234512345123456789AB13";
  country "GP" 27 "F05F05A11F02" "GP791234512345123456789AB13";
  country "MQ" 27 "F05F05A11F02" "MQ221234512345123456789AB13";
  country "RE" 27 "F05F05A11F02" "RE131234512345123456789AB13";
  country "PF" 27 "F05F05A11F02" "PF281234512345123456789AB13";
  country "TF" 27 "F05F05A11F02" "TF891234512345123456789AB13";
  country "YT" 27 "F05F05A11F02" "YT021234512345123456789AB13";
  country "NC" 27 "F05F05A11F02" "NC551234512345123456789AB13";
  country "BL" 27 "F05F05A11F02" "BL391234512345123456789AB13";
  country "MF" 27 "F05F05A11F02" "MF551234512345123456789AB13";
  country "PM" 27 "F05F05A11F02" "PM071234512345123456789AB13";
  country "WF" 27 "F05F05A11F02" "WF621234512345123456789AB13"
].

(** ** iban *)

(** What [COUNTRIES[key]] evaluates to when it is not [undefined]: an
    entry of the table, or a member that the object literal inherits
    from [Object.prototype]. *)
Inductive property :=
| Own (spec : Specification.t)
| Inherited.

Definition Object_prototype_keys : list jsstring :=
  map js ["constructor"; "hasOwnProperty"; "isPrototypeOf";
          "propertyIsEnumerable"; "toLocaleString"; "toString"; "valueOf";
          "__defineGetter__"; "__defineSetter__"; "__lookupGetter__";
          "__lookupSetter__"; "__proto__"]%string.

Fixpoint assoc (key : jsstring) (table : list (jsstring * Specification.t))
  : option Specification.t :=
  match table with
  | [] => None
  | (k, v) :: rest => if str_eqb k key then Some v else assoc key rest
  end.

Definition COUNTRIES_get (key : jsstring) : option property :=
  match assoc key COUNTRIES with
  | Some spec => Some (Own spec)
  | None =>
      if existsb (str_eqb key) Object_prototype_keys then Some Inherited
      else None
  end.

Definition getCountry (countryCode : jsstring) : outcome property :=
  match COUNTRIES_get countryCode with
  | None => Throw (Error (js "No country with code " ++ countryCode))
  | Some countryStructure => Return countryStructure
  end.

(** A method call on what [getCountry] returned: an inherited member is
    not a specification and has none of its methods. *)
Definition call {A} (p : property) (method : Specification.t -> outcome A)
  : outcome A :=
  match p with
  | Own spec => method spec
  | Inherited => Throw TypeError
  end.

Definition electronicFormat (iban : jsstring) : jsstring :=
  toUpperCase (filter (fun c => negb (NON_ALPHANUM c)) iban).

Definition isValid (iban : value) : outcome bool :=
  if negb (isString iban) then Return false
  else
    let ibanFormatted := electronicFormat (string_of iban) in
    try_catch_false
      (let* countryStructure := getCountry (slice 0 (Some 2) ibanFormatted) in
       call countryStructure
         (fun spec => Specification.isValid spec ibanFormatted)).

(** [None] is an omitted argument, which takes the default [' ']. *)
Definition default_separator (separator : option jsstring) : jsstring :=
  match separator with
  | Some s => s
  | None => js " "
  end.

Definition toBBAN (iban : jsstring) (separator : option jsstring)
  : outcome jsstring :=
  let separator := default_separator separator in
  let ibanFormatted := electronicFormat iban in
  let* countryStructure := getCountry (slice 0 (Some 2) ibanFormatted) in
  call countryStructure
    (fun spec => Specification.toBBAN spec ibanFormatted separator).

Definition fromBBAN (countryCode bban : jsstring) : outcome jsstring :=
  let* countryStructure := getCountry countryCode in
  call countryStructure
    (fun spec => Specification.fromBBAN spec (electronicFormat bban)).

Definition isValidBBAN (countryCode : jsstring) (bban : value) : outcome bool :=
  if negb (isString bban) then Return false
  else
    let* countryStructure := getCountry countryCode in
    call countryStructure
      (fun spec =>
         Specification.isValidBBAN spec (electronicFormat (string_of bban))).

(** [GetSubstitution]: the expansion of a replacement template for one
    match, without named groups.  [$$] is a dollar, [$&] the match,
    [$`] what precedes it, [$'] what follows it, [$n] and [$nn] a
    capture when there is one of that index; anything else stands for
    itself. *)
Fixpoint GetSubstitution (matched before after : jsstring)
  (captures : list jsstring) (template : jsstring) : jsstring :=
  let m := Z.of_nat (List.length captures) in
  let capture i := nth (Z.to_nat (i - 1)) captures [] in
  match template with
  | [] => []
  | c :: t1 =>
      if negb (c =? 36) then
        c :: GetSubstitution matched before after captures t1
      else
        match t1 with
        | [] => [c]
        | d :: t2 =>
            let one_digit :=
              let index := d - 48 in
              (if (1 <=? index) && (index <=? m) then capture index
               else [c; d])
                ++ GetSubstitution matched before after captures t2 in
            if d =? 36 then
              36 :: GetSubstitution matched before after captures t2
            else if d =? 96 then
              before ++ GetSubstitution matched before after captures t2
            else if d =? 38 then
              matched ++ GetSubstitution matched before after captures t2
            else if d =? 39 then
              after ++ GetSubstitution matched before after captures t2
            else if is_digit d then
              match t2 with
              | e :: t3 =>
                  let index := 10 * (d - 48) + (e - 48) in
                  if is_digit e && (index <=? m) then
                    (if 1 <=? index then capture index else [c; d; e])
                      ++ GetSubstitution matched before after captures t3
                  else one_digit
              | [] => one_digit
              end
            else c :: GetSubstitution matched before after captures t1
        end
  end.

(** [s.replaceAll(/(.{4})(?!$)/g, template)]: at each position from the
    left, four code units that [.] matches and that do not end the
    string are replaced and skipped; otherwise one code unit is copied.
    [before] is what was scanned so far, last unit first. *)
Fixpoint replaceAll_EVERY_FOUR_CHARS (template before s : jsstring)
  : jsstring :=
  match s with
  | [] => []
  | a :: tl =>
      match tl with
      | b :: c :: d :: (_ :: _) as rest =>
          if dot a && dot b && dot c && dot d then
            GetSubstitution [a; b; c; d] (rev before) rest [[a; b; c; d]]
              template
              ++ replaceAll_EVERY_FOUR_CHARS template
                   (d :: c :: b :: a :: before) rest
          else a :: replaceAll_EVERY_FOUR_CHARS template (a :: before) tl
      | _ => a :: replaceAll_EVERY_FOUR_CHARS template (a :: before) tl
      end
  end.

Definition printFormat (iban : jsstring) (separator : option jsstring)
  : jsstring :=
  let separator := default_separator separator in
  replaceAll_EVERY_FOUR_CHARS (js "$1" ++ separator) []
    (electronicFormat iban).

Definition availableCountries : list (jsstring * Specification.t) := COUNTRIES.


(** ** Reference definitions

    What the statements below compare the code with. *)

(** [s] cut from the left into pieces of four code units; the last piece
    has one to four. *)
Fixpoint groups_of_four (s : jsstring) : list jsstring :=
  match s with
  | [] => []
  | a :: tl =>
      match tl with
      | b :: c :: d :: (_ :: _) as rest => [a; b; c; d] :: groups_of_four rest
      | _ => [s]
      end
  end.

(** A string of decimal digits. *)
Definition digits (s : jsstring) : Prop :=
  Forall (fun c => is_digit c = true) s.

(** The two decimal digits of [k], for [0 <= k < 100]. *)
Definition two_digits (k : Z) : jsstring := [48 + k / 10; 48 + k mod 10].

(** The numeral of a natural number below 100, without leading zero. *)
Definition short_numeral (k : Z) : jsstring :=
  if k <? 10 then [48 + k] else two_digits k.

(** The reduction as the specification puts it: while more than two
    digits are left, the first nine (or fewer) are replaced by the
    numeral of their value modulo 97. *)
Fixpoint streaming_reduction (turns : nat) (s : jsstring) : jsstring :=
  match turns with
  | O => s
  | S t =>
      if (List.length s <=? 2)%nat then s
      else
        streaming_reduction t
          (short_numeral (decimal_value (firstn 9 s) mod 97) ++ skipn 9 s)
  end.

(** What the specification says [iso7064Mod9710] returns: the integer
    value of what the reduction leaves. *)
Definition specified_mod9710 (s : jsstring) : Z :=
  decimal_value (streaming_reduction (List.length s) s).

(** The numeric value of a letter: its ordinal minus that of [A], plus
    10. *)
Definition letter_value (c : Z) : Z := c - 65 + 10.

(** What a prepared string holds for one code unit: the two digits of
    its value for an upper-case letter, the code unit itself otherwise. *)
Definition numeric (c : Z) : jsstring :=
  if is_upper c then two_digits (letter_value c) else [c].

Definition count_letters (s : jsstring) : nat :=
  List.length (filter is_upper s).

(** *** Structure descriptors, as the specification describes them *)

(** The seven class codes. *)
Definition is_class_code (c : Z) : bool := existsb (Z.eqb c) (js "ABCFLUW").

(** The characters a class code allows. *)
Definition allowed (code c : Z) : bool :=
  if code =? 65 then is_digit c || is_upper c || is_lower c
  else if code =? 66 then is_digit c || is_upper c
  else if code =? 67 then is_upper c || is_lower c
  else if code =? 70 then is_digit c
  else if code =? 76 then is_lower c
  else if code =? 85 then is_upper c
  else if code =? 87 then is_digit c || is_lower c
  else false.

(** A well-formed descriptor: blocks of a class code and two digits. *)
Fixpoint wf_structure (d : jsstring) : bool :=
  match d with
  | [] => true
  | a :: tl =>
      match tl with
      | b :: c :: rest =>
          is_class_code a && is_digit b && is_digit c && wf_structure rest
      | _ => false
      end
  end.

(** The blocks of a descriptor: class code and length. *)
Fixpoint blocks (d : jsstring) : list (Z * nat) :=
  match d with
  | [] => []
  | a :: tl =>
      match tl with
      | b :: c :: rest =>
          (a, Z.to_nat (10 * (b - 48) + (c - 48))) :: blocks rest
      | _ => []
      end
  end.

Definition block_lengths (d : jsstring) : list nat := map snd (blocks d).

(** [s] is the concatenation of one segment per block, each of the
    length of its block and of characters its class allows. *)
Fixpoint fits (bs : list (Z * nat)) (s : jsstring) : bool :=
  match bs with
  | [] => match s with [] => true | _ => false end
  | (code, n) :: bs' =>
      (n <=? List.length s)%nat && forallb (allowed code) (firstn n s)
      && fits bs' (skipn n s)
  end.

(** [s] cut into consecutive segments of the given lengths. *)
Fixpoint cut (lengths : list nat) (s : jsstring) : list jsstring :=
  match lengths with
  | [] => []
  | n :: rest => firstn n s :: cut rest (skipn n s)
  end.

(** A country specification as the data model has it: a country code of
    two upper-case letters and a well-formed descriptor of at least one
    block. *)
Definition wf_countryCode (cc : jsstring) : bool :=
  match cc with
  | [a; b] => is_upper a && is_upper b
  | _ => false
  end.

Definition wf_specification (spec : Specification.t) : bool :=
  wf_countryCode (Specification.countryCode spec)
  && wf_structure (Specification.structure spec)
  && negb (str_eqb (Specification.structure spec) []).

(** The group that the compiler builds for a block. *)
Definition compile_block (b : Z * nat) : group :=
  {| format := switch_format [fst b]; repeats := Num (Z.of_nat (snd b)) |}.

(** What the data model asks of an entry of the table: the key is the
    country code, the specification is well formed, and the lengths of
    the blocks add up to the length of the BBAN. *)
Definition registered_ok (entry : jsstring * Specification.t) : bool :=
  let spec := snd entry in
  str_eqb (fst entry) (Specification.countryCode spec)
  && wf_specification spec
  && (Z.of_nat (list_sum (block_lengths (Specification.structure spec)))
      =? Specification.length spec - 4).

Definition parse_error : exn :=
  Error (js "Something went wrong while parsing the structure").

(** The digits that a prepared IBAN holds before those of its check
    digits: the BBAN, then the country code [a b], letters expanded. *)
Definition prepared_body (a b : Z) (bban : jsstring) : jsstring :=
  flat_map numeric (toUpperCase bban) ++ numeric a ++ numeric b.

(** The entry of Belgium in the table, for the examples. *)
Definition Belgium : Specification.t :=
  snd (country "BE" 16 "F03F07F02" "BE68539007547034").

(** *** The country table *)

(** No key occurs twice. *)
Fixpoint distinct_keys (keys : list jsstring) : bool :=
  match keys with
  | [] => true
  | k :: rest => negb (existsb (str_eqb k) rest) && distinct_keys rest
  end.

(** What holds of an entry besides [registered_ok]: the example has the
    declared length, which lies between 15 and 32, and is valid. *)
Definition example_ok (entry : jsstring * Specification.t) : bool :=
  let spec := snd entry in
  (len (Specification.example spec) =? Specification.length spec)
  && (15 <=? Specification.length spec)
  && (Specification.length spec <=? 32)
  && match isValid (VString (Specification.example spec)) with
     | Return true => true
     | _ => false
     end.

(** *** Complete blocks, as the amended C6 describes them *)

(** The descriptor holds three successive characters free of line
    terminators. *)
Definition has_complete_block (d : jsstring) : Prop :=
  exists p a b c q,
    d = p ++ a :: b :: c :: q
    /\ dot a = true /\ dot b = true /\ dot c = true.

(** The complete blocks of three characters of a descriptor, by
    position: the block of index [i] starts at offset [3 * i]. *)
Definition complete_blocks (d : jsstring) : list jsstring :=
  map (fun i => firstn 3 (skipn (3 * i) d)) (seq 0 (List.length d / 3)).

(** * Properties *)

(** ** Strings and slices *)

Lemma str_eqb_eq (a b : jsstring) : str_eqb a b = true <-> a = b.
Proof.
  revert b; induction a as [|x a IH]; intros [|y b]; simpl;
    try (split; [discriminate | discriminate]); try tauto.
  rewrite andb_true_iff, Z.eqb_eq, IH.
  split; [intros [-> ->]; reflexivity | intros H; inversion H; auto].
Qed.

Lemma str_eqb_refl (a : jsstring) : str_eqb a a = true.
Proof. apply str_eqb_eq; reflexivity. Qed.

Lemma len_app (a b : jsstring) : len (a ++ b) = len a + len b.
Proof. unfold len; rewrite length_app; lia. Qed.

Lemma len_nonneg (s : jsstring) : 0 <= len s.
Proof. unfold len; lia. Qed.

Lemma firstn_min_length {A} (k : nat) (l : list A) :
  firstn (Nat.min k (List.length l)) l = firstn k l.
Proof.
  destruct (Nat.le_ge_cases k (List.length l)) as [H|H].
  - rewrite Nat.min_l by assumption; reflexivity.
  - rewrite Nat.min_r by assumption.
    rewrite firstn_all, firstn_all2 by assumption; reflexivity.
Qed.

(** [s.slice(0, k)] is the first [k] code units of [s]. *)
Lemma slice_prefix (k : nat) (s : jsstring) :
  slice 0 (Some (Z.of_nat k)) s = firstn k s.
Proof.
  unfold slice, clamp_index, len.
  change (0 <? 0) with false; cbv iota.
  destruct (Z.ltb_spec (Z.of_nat k) 0); [lia|].
  replace (Z.min 0 (Z.of_nat (List.length s))) with 0 by lia.
  change (Z.to_nat 0) with 0%nat; cbn [skipn].
  replace (Z.to_nat (Z.min (Z.of_nat k) (Z.of_nat (List.length s)) - 0))
    with (Nat.min k (List.length s)) by lia.
  apply firstn_min_length.
Qed.

(** [s.slice(k)] is [s] without its first [k] code units. *)
Lemma slice_suffix (k : nat) (s : jsstring) :
  slice (Z.of_nat k) None s = skipn k s.
Proof.
  unfold slice, clamp_index, len.
  destruct (Z.ltb_spec (Z.of_nat k) 0); [lia|].
  replace (Z.to_nat (Z.min (Z.of_nat k) (Z.of_nat (List.length s))))
    with (Nat.min k (List.length s)) by lia.
  destruct (Nat.le_ge_cases k (List.length s)) as [Hk|Hk].
  - rewrite Nat.min_l by assumption.
    apply firstn_all2; rewrite length_skipn; lia.
  - rewrite Nat.min_r by assumption.
    rewrite (skipn_all2 s Hk), skipn_all; apply firstn_nil.
Qed.

(** ** Character classes *)

(** Splits on every integer comparison in sight, then arithmetic. *)
Ltac compare_units :=
  repeat match goal with
    | H : context [?a <=? ?b] |- _ => destruct (Z.leb_spec a b)
    | |- context [?a <=? ?b] => destruct (Z.leb_spec a b)
    | H : context [?a =? ?b] |- _ => destruct (Z.eqb_spec a b)
    | |- context [?a =? ?b] => destruct (Z.eqb_spec a b)
    end;
  cbn [andb orb negb] in *; try congruence; try lia.

Ltac unfold_classes :=
  unfold canonicalize, upper_unit, is_normal, is_alnum, is_digit, is_upper,
    is_lower, in_range in *.

Lemma in_range_bounds (lo hi c : Z) :
  in_range lo hi c = true <-> lo <= c <= hi.
Proof. unfold in_range; rewrite andb_true_iff, !Z.leb_le; tauto. Qed.

(** Settles comparisons with constants once the bounds on the unit are
    among the hypotheses, one comparison at a time. *)
Ltac decide_units :=
  repeat match goal with
    | |- context [?a =? ?b] =>
        replace (a =? b) with false by (symmetry; apply Z.eqb_neq; lia)
    | |- context [?a <=? ?b] =>
        first
          [ replace (a <=? b) with true by (symmetry; apply Z.leb_le; lia)
          | replace (a <=? b) with false by (symmetry; apply Z.leb_gt; lia) ]
    end.

Lemma In_range_units (lo hi a : Z) :
  In a (range_units lo hi) <-> lo <= a <= hi.
Proof.
  unfold range_units; rewrite in_map_iff; split.
  - intros (i & <- & Hi); apply in_seq in Hi; lia.
  - intros H; exists (Z.to_nat (a - lo)); split; [lia|].
    apply in_seq; lia.
Qed.

(** [NON_ALPHANUM] matches the code units outside [0-9A-Za-z]. *)
Lemma NON_ALPHANUM_alnum (c : Z) : NON_ALPHANUM c = negb (is_alnum c).
Proof.
  unfold NON_ALPHANUM; f_equal; apply eq_true_iff_eq.
  rewrite existsb_exists; split.
  - intros (a & Hin & Heq).
    rewrite in_app_iff, !In_range_units in Hin; apply Z.eqb_eq in Heq.
    unfold_classes; compare_units.
  - intros H.
    destruct (is_lower c || is_digit c) eqn:E.
    + exists c; rewrite in_app_iff, !In_range_units, Z.eqb_eq.
      split; [|reflexivity]; unfold_classes; compare_units.
    + exists (c + 32); rewrite in_app_iff, !In_range_units, Z.eqb_eq.
      unfold_classes; split; compare_units.
Qed.

Lemma electronicFormat_filter (x : jsstring) :
  electronicFormat x = toUpperCase (filter is_alnum x).
Proof.
  unfold electronicFormat; f_equal; apply filter_ext; intros c.
  rewrite NON_ALPHANUM_alnum; apply negb_involutive.
Qed.

Lemma electronicFormat_normalized (x : jsstring) :
  normalized (electronicFormat x).
Proof.
  rewrite electronicFormat_filter; unfold normalized, toUpperCase.
  apply Forall_map, Forall_forall; intros c Hc.
  apply filter_In in Hc; destruct Hc as [_ Hc].
  unfold_classes; compare_units.
Qed.

Lemma electronicFormat_fixes_normalized (s : jsstring) :
  normalized s -> electronicFormat s = s.
Proof.
  rewrite electronicFormat_filter; unfold toUpperCase.
  induction 1 as [|c s Hc _ IH]; [reflexivity|].
  assert (is_alnum c = true /\ upper_unit c = c) as [Ha Hu]
    by (unfold_classes; split; compare_units).
  simpl; rewrite Ha; simpl; rewrite Hu, IH; reflexivity.
Qed.

(** ** Grouping by four *)

Lemma by_length {A} (P : list A -> Prop) :
  (forall n l, (List.length l <= n)%nat -> P l) -> forall l, P l.
Proof. intros H l; exact (H (List.length l) l (Nat.le_refl _)). Qed.

Lemma GetSubstitution_plain matched before after captures (t : jsstring) :
  Forall (fun c => c <> 36) t ->
  GetSubstitution matched before after captures t = t.
Proof.
  induction 1 as [|c t Hc _ IH]; [reflexivity|].
  cbn [GetSubstitution].
  destruct (Z.eqb_spec c 36); [contradiction|].
  cbn [negb]; rewrite IH; reflexivity.
Qed.

Lemma groups_of_four_step a b c d e (r : jsstring) :
  groups_of_four (a :: b :: c :: d :: e :: r)
  = [a; b; c; d] :: groups_of_four (e :: r).
Proof. reflexivity. Qed.

Lemma groups_of_four_nonempty e (r : jsstring) : groups_of_four (e :: r) <> [].
Proof. destruct r as [|? [|? [|? [|? ?]]]]; discriminate. Qed.

Lemma replaceAll_step template before a b c d e (r : jsstring) :
  replaceAll_EVERY_FOUR_CHARS template before (a :: b :: c :: d :: e :: r)
  = if dot a && dot b && dot c && dot d then
      GetSubstitution [a; b; c; d] (rev before) (e :: r) [[a; b; c; d]]
        template
        ++ replaceAll_EVERY_FOUR_CHARS template (d :: c :: b :: a :: before)
             (e :: r)
    else
      a :: replaceAll_EVERY_FOUR_CHARS template (a :: before)
             (b :: c :: d :: e :: r).
Proof. reflexivity. Qed.

Lemma concat_groups_of_four (s : jsstring) : List.concat (groups_of_four s) = s.
Proof.
  pattern s; apply by_length; clear s.
  induction n as [|n IH]; intros s Hn.
  - destruct s; [reflexivity | simpl in Hn; lia].
  - destruct s as [|a [|b [|c [|d [|e r]]]]];
      try reflexivity; try (simpl; rewrite app_nil_r; reflexivity).
    rewrite groups_of_four_step; cbn [List.concat].
    rewrite IH by (simpl in *; lia); reflexivity.
Qed.

(** All groups but the last have four code units; the last has one to
    four. *)
Lemma groups_of_four_shape (s : jsstring) :
  Forall (fun g => List.length g = 4%nat) (removelast (groups_of_four s))
  /\ Forall (fun g => (1 <= List.length g <= 4)%nat) (groups_of_four s).
Proof.
  pattern s; apply by_length; clear s.
  induction n as [|n IH]; intros s Hn.
  - destruct s; [split; constructor | simpl in Hn; lia].
  - destruct s as [|a [|b [|c [|d [|e r]]]]];
      try (split; repeat constructor; simpl; lia).
    rewrite groups_of_four_step.
    destruct (IH (e :: r) ltac:(simpl in *; lia)) as [A B].
    pose proof (groups_of_four_nonempty e r) as Hne.
    destruct (groups_of_four (e :: r)) as [|g gs] eqn:E; [contradiction|].
    split.
    + change (removelast ([a; b; c; d] :: g :: gs))
        with ([a; b; c; d] :: removelast (g :: gs)).
      constructor; [reflexivity | exact A].
    + constructor; [simpl; lia | exact B].
Qed.

Lemma filter_join (f : Z -> bool) (separator : jsstring) parts :
  Forall (fun c => f c = false) separator ->
  filter f (join separator parts) = filter f (List.concat parts).
Proof.
  intros Hsep.
  assert (E : filter f separator = []).
  { induction Hsep as [|c t Hc _ IH]; [reflexivity|].
    simpl; rewrite Hc; assumption. }
  induction parts as [|p [|q rest] IH].
  - reflexivity.
  - simpl; rewrite app_nil_r; reflexivity.
  - change (join separator (p :: q :: rest))
      with (p ++ separator ++ join separator (q :: rest)).
    change (List.concat (p :: q :: rest)) with (p ++ List.concat (q :: rest)).
    rewrite !filter_app, E, IH; reflexivity.
Qed.

Lemma normalized_dot (s : jsstring) :
  normalized s -> Forall (fun c => dot c = true) s.
Proof.
  apply Forall_impl; intros c Hc.
  unfold dot, is_line_terminator; unfold_classes; compare_units.
Qed.

Section PlainSeparator.

(** A separator without [$], which the replacement template takes as it
    is. *)
Variable separator : jsstring.
Hypothesis no_dollar : Forall (fun c => c <> 36) separator.

(** The template [`$1${separator}`]: the capture, then the separator. *)
Lemma GetSubstitution_template matched before after :
  GetSubstitution matched before after [matched] (js "$1" ++ separator)
  = matched ++ separator.
Proof.
  assert (E : GetSubstitution matched before after [matched] separator
              = separator) by (apply GetSubstitution_plain; assumption).
  change (js "$1" ++ separator) with (36 :: 49 :: separator).
  cbn [GetSubstitution]; rewrite E.
  change (negb (36 =? 36)) with false; cbv iota.
  change (49 =? 36) with false; change (49 =? 96) with false.
  change (49 =? 38) with false; change (49 =? 39) with false.
  change (is_digit 49) with true; cbv iota.
  change (49 - 48) with 1.
  change (Z.of_nat (List.length [matched])) with 1.
  assert (F : forall e, is_digit e && (10 * 1 + (e - 48) <=? 1) = false).
  { intros e; unfold is_digit, in_range; compare_units. }
  destruct separator as [|e t3]; [|rewrite F]; reflexivity.
Qed.

Lemma replaceAll_groups :
  forall s before,
    Forall (fun c => dot c = true) s ->
    replaceAll_EVERY_FOUR_CHARS (js "$1" ++ separator) before s
    = join separator (groups_of_four s).
Proof.
  intros s; pattern s; apply by_length; clear s.
  induction n as [|n IH]; intros s Hn before Hdot.
  - destruct s; [reflexivity | simpl in Hn; lia].
  - destruct s as [|a [|b [|c [|d [|e r]]]]]; try reflexivity.
    rewrite replaceAll_step, groups_of_four_step.
    inversion Hdot as [|? ? Ha H1]; subst.
    inversion H1 as [|? ? Hb H2]; subst.
    inversion H2 as [|? ? Hc H3]; subst.
    inversion H3 as [|? ? Hd H4]; subst.
    rewrite Ha, Hb, Hc, Hd; cbn [andb].
    rewrite GetSubstitution_template.
    rewrite IH by (simpl in *; try lia; assumption).
    pose proof (groups_of_four_nonempty e r) as Hne.
    destruct (groups_of_four (e :: r)) eqn:E; [contradiction|].
    cbn [join]; rewrite <- app_assoc; reflexivity.
Qed.

(** [printFormat] cuts the electronic format into groups of four and
    joins them with the separator. *)
Lemma printFormat_groups (x : jsstring) :
  printFormat x (Some separator)
  = join separator (groups_of_four (electronicFormat x)).
Proof.
  unfold printFormat, default_separator.
  apply replaceAll_groups, normalized_dot, electronicFormat_normalized.
Qed.

End PlainSeparator.

(** ** electronicFormat and printFormat *)

(** C8: for every string [x], [electronicFormat x] keeps exactly the
    code units of [x] that lie in [0-9A-Za-z], in their order, and puts
    them in upper case, so that only digits and upper-case letters are
    left; applying [electronicFormat] a second time changes nothing. *)
Theorem electronicFormat_strips_and_is_idempotent (x : jsstring) :
  electronicFormat x = toUpperCase (filter is_alnum x)
  /\ normalized (electronicFormat x)
  /\ electronicFormat (electronicFormat x) = electronicFormat x.
Proof.
  split; [apply electronicFormat_filter|].
  split; [apply electronicFormat_normalized|].
  apply electronicFormat_fixes_normalized, electronicFormat_normalized.
Qed.

(** C9: for every string [x], [printFormat x " "] is the electronic
    format of [x] cut from the left into groups of four code units (the
    last group may be shorter), with one space between consecutive
    groups; [electronicFormat] undoes the grouping; and
    [printFormat "BE68539007547034"], with the default separator, is
    ["BE68 5390 0754 7034"]. *)
Theorem printFormat_groups_by_four_and_electronicFormat_inverts (x : jsstring) :
  printFormat x (Some (js " "))
  = join (js " ") (groups_of_four (electronicFormat x))
  /\ List.concat (groups_of_four (electronicFormat x)) = electronicFormat x
  /\ Forall (fun g => List.length g = 4%nat)
       (removelast (groups_of_four (electronicFormat x)))
  /\ Forall (fun g => (1 <= List.length g <= 4)%nat)
       (groups_of_four (electronicFormat x))
  /\ electronicFormat (printFormat x (Some (js " "))) = electronicFormat x
  /\ printFormat (js "BE68539007547034") None = js "BE68 5390 0754 7034".
Proof.
  assert (Hsp : Forall (fun c => c <> 36) (js " "))
    by (repeat constructor; discriminate).
  split; [apply (printFormat_groups _ Hsp)|].
  split; [apply concat_groups_of_four|].
  split; [apply groups_of_four_shape|].
  split; [apply groups_of_four_shape|].
  split; [|vm_compute; reflexivity].
  rewrite (printFormat_groups _ Hsp).
  rewrite electronicFormat_filter.
  rewrite (filter_join is_alnum) by (repeat constructor).
  rewrite concat_groups_of_four, <- electronicFormat_filter.
  apply electronicFormat_fixes_normalized, electronicFormat_normalized.
Qed.

(** ** Numerals *)

Lemma fold_decimal (l : jsstring) (acc : Z) :
  fold_left (fun a c => 10 * a + (c - 48)) l acc
  = acc * 10 ^ len l + decimal_value l.
Proof.
  unfold decimal_value, len; revert acc.
  induction l as [|c l IH]; intros acc; [simpl; lia|].
  cbn [fold_left]; rewrite IH, (IH (10 * 0 + (c - 48))).
  replace (Z.of_nat (List.length (c :: l)))
    with (Z.succ (Z.of_nat (List.length l))) by (simpl; lia).
  rewrite Z.pow_succ_r by lia; ring.
Qed.

Lemma decimal_value_app (a b : jsstring) :
  decimal_value (a ++ b) = decimal_value a * 10 ^ len b + decimal_value b.
Proof.
  unfold decimal_value at 1; rewrite fold_left_app.
  rewrite fold_decimal; reflexivity.
Qed.

Lemma decimal_value_cons (c : Z) (s : jsstring) :
  decimal_value (c :: s) = (c - 48) * 10 ^ len s + decimal_value s.
Proof. apply (decimal_value_app [c] s). Qed.

Lemma decimal_value_nonneg (s : jsstring) : digits s -> 0 <= decimal_value s.
Proof.
  induction 1 as [|c s Hc _ IH]; [reflexivity|].
  rewrite decimal_value_cons.
  assert (0 <= 10 ^ len s) by (apply Z.pow_nonneg; lia).
  unfold_classes; compare_units; nia.
Qed.

Lemma digits_app (a b : jsstring) : digits a -> digits b -> digits (a ++ b).
Proof. intros; apply Forall_app; auto. Qed.

Lemma take_digits_all (s : jsstring) : digits s -> take_digits s = s.
Proof.
  induction 1 as [|c s Hc _ IH]; [reflexivity|].
  simpl; rewrite Hc, IH; reflexivity.
Qed.

(** [parseInt] reads a non-empty string of digits as its value. *)
Lemma parseInt_digits (s : jsstring) :
  digits s -> s <> [] -> parseInt s = Num (decimal_value s).
Proof.
  intros H Hne; destruct s as [|c r]; [contradiction|].
  inversion H as [|? ? Hc Hr]; subst.
  pose proof (proj1 (in_range_bounds 48 57 c) Hc) as Hb.
  assert (W : is_white_space c = false)
    by (unfold is_white_space, in_range; decide_units; reflexivity).
  unfold parseInt; cbn [trim_start]; rewrite W.
  assert ((c =? 45) = false /\ (c =? 43) = false) as [-> ->]
    by (split; apply Z.eqb_neq; lia).
  rewrite (take_digits_all _ H).
  f_equal; lia.
Qed.

Lemma short_numeral_digits (k : Z) :
  0 <= k < 100 ->
  digits (short_numeral k) /\ decimal_value (short_numeral k) = k
  /\ (1 <= List.length (short_numeral k) <= 2)%nat.
Proof.
  intros Hk; unfold short_numeral, two_digits.
  pose proof (Z.mod_pos_bound k 10 ltac:(lia)).
  assert (0 <= k / 10 < 10)
    by (split; [apply Z.div_pos; lia | apply Z.div_lt_upper_bound; lia]).
  destruct (Z.ltb_spec k 10).
  - split; [|split; [unfold decimal_value; cbn [fold_left]; lia | simpl; lia]].
    repeat constructor; unfold_classes; compare_units.
  - split; [|split; [|simpl; lia]].
    + repeat constructor; unfold_classes; compare_units.
    + unfold decimal_value; cbn [fold_left].
      pose proof (Z.div_mod k 10 ltac:(lia)); lia.
Qed.

(** [String(k)] for a natural number below 100. *)
Lemma toString_short (k : Z) :
  0 <= k < 100 -> toString (Num k) = short_numeral k.
Proof.
  intros Hk; unfold toString, short_numeral, two_digits, decimal_digits.
  destruct (Z.ltb_spec k 0); [lia|].
  cbn [digits_fuel].
  destruct (Z.ltb_spec k 10); [rewrite Z.mod_small by lia; reflexivity|].
  assert (3 <= Z.log2 k) by (apply (Z.log2_le_mono 8 k); lia).
  destruct (Z.to_nat (Z.log2 k)) as [|f] eqn:E; [lia|].
  cbn [digits_fuel].
  assert (k / 10 < 10) by (apply Z.div_lt_upper_bound; lia).
  assert (0 <= k / 10) by (apply Z.div_pos; lia).
  destruct (Z.ltb_spec (k / 10) 10); [|lia].
  rewrite (Z.mod_small (k / 10) 10) by lia; reflexivity.
Qed.

(** ** The reduction modulo 97 *)

Lemma skipn_min_length {A} (k : nat) (l : list A) :
  skipn (Nat.min k (List.length l)) l = skipn k l.
Proof.
  destruct (Nat.le_ge_cases k (List.length l)) as [H|H].
  - rewrite Nat.min_l by assumption; reflexivity.
  - rewrite Nat.min_r by assumption.
    rewrite skipn_all, skipn_all2 by assumption; reflexivity.
Qed.

Lemma Forall_firstn {A} (P : A -> Prop) (k : nat) (l : list A) :
  Forall P l -> Forall P (firstn k l).
Proof.
  rewrite !Forall_forall; intros H x Hx; apply H.
  rewrite <- (firstn_skipn k l); apply in_or_app; auto.
Qed.

Lemma Forall_skipn {A} (P : A -> Prop) (k : nat) (l : list A) :
  Forall P l -> Forall P (skipn k l).
Proof.
  rewrite !Forall_forall; intros H x Hx; apply H.
  rewrite <- (firstn_skipn k l); apply in_or_app; auto.
Qed.

Lemma digits_firstn (k : nat) (s : jsstring) : digits s -> digits (firstn k s).
Proof. apply Forall_firstn. Qed.

Lemma digits_skipn (k : nat) (s : jsstring) : digits s -> digits (skipn k s).
Proof. apply Forall_skipn. Qed.

Lemma js_rem_nonneg (v : Z) : 0 <= v -> js_rem (Num v) 97 = Num (v mod 97).
Proof. intros H; unfold js_rem; rewrite Z.rem_mod_nonneg by lia; reflexivity. Qed.

(** One turn of the loop on a string of more than two digits. *)
Lemma iso7064_turn (s : jsstring) :
  digits s -> (2 < List.length s)%nat ->
  toString (js_rem (parseInt (slice 0 (Some 9) s)) 97)
    ++ slice (len (slice 0 (Some 9) s)) None s
  = short_numeral (decimal_value (firstn 9 s) mod 97) ++ skipn 9 s.
Proof.
  intros Hs Hlen.
  change 9 with (Z.of_nat 9); rewrite slice_prefix.
  unfold len; rewrite slice_suffix, length_firstn, skipn_min_length.
  assert (Hne : firstn 9 s <> [])
    by (destruct s as [|? ?]; [simpl in Hlen; lia | discriminate]).
  rewrite parseInt_digits by (auto using digits_firstn).
  rewrite js_rem_nonneg by (apply decimal_value_nonneg, digits_firstn, Hs).
  rewrite toString_short; [reflexivity|].
  pose proof (Z.mod_pos_bound (decimal_value (firstn 9 s)) 97); lia.
Qed.

Lemma two_lt_len (s : jsstring) :
  (2 <? len s) = negb (List.length s <=? 2)%nat.
Proof.
  unfold len; destruct (Z.ltb_spec 2 (Z.of_nat (List.length s)));
    destruct (Nat.leb_spec (List.length s) 2); simpl; try reflexivity; lia.
Qed.

Lemma turn_shortens (s : jsstring) (k : Z) :
  0 <= k < 100 -> (2 < List.length s)%nat ->
  (List.length (short_numeral k ++ skipn 9 s) < List.length s)%nat.
Proof.
  intros Hk Hs; rewrite length_app, length_skipn.
  destruct (short_numeral_digits k Hk) as (_ & _ & Hl); lia.
Qed.

(** On digits the loop ends within as many turns as the string is long
    and leaves what the reduction of the specification leaves. *)
Lemma iso7064_loop_streaming (fuel : nat) :
  forall s, digits s -> (List.length s <= fuel)%nat ->
  iso7064_loop fuel s = Return (streaming_reduction fuel s).
Proof.
  induction fuel as [|fuel IH]; intros s Hs Hlen.
  - cbn [iso7064_loop streaming_reduction]; rewrite two_lt_len.
    destruct (Nat.leb_spec (List.length s) 2); [reflexivity | lia].
  - cbn [iso7064_loop streaming_reduction]; rewrite two_lt_len.
    destruct (Nat.leb_spec (List.length s) 2); [reflexivity|]; cbn [negb].
    rewrite iso7064_turn by assumption.
    assert (Hk : 0 <= decimal_value (firstn 9 s) mod 97 < 100)
      by (pose proof (Z.mod_pos_bound (decimal_value (firstn 9 s)) 97); lia).
    apply IH.
    + apply digits_app; [apply short_numeral_digits, Hk | apply digits_skipn, Hs].
    + pose proof (turn_shortens s _ Hk ltac:(lia)); lia.
Qed.

(** The reduction keeps digits, ends with at most two of them, and keeps
    the value modulo 97. *)
Lemma streaming_reduction_value (turns : nat) :
  forall s, digits s -> (List.length s <= turns)%nat ->
  digits (streaming_reduction turns s)
  /\ (List.length (streaming_reduction turns s) <= 2)%nat
  /\ (s <> [] -> streaming_reduction turns s <> [])
  /\ decimal_value (streaming_reduction turns s) mod 97
     = decimal_value s mod 97.
Proof.
  induction turns as [|turns IH]; intros s Hs Hlen.
  - cbn [streaming_reduction]; repeat split; auto; lia.
  - cbn [streaming_reduction].
    destruct (Nat.leb_spec (List.length s) 2); [repeat split; auto|].
    set (k := decimal_value (firstn 9 s) mod 97).
    assert (Hk : 0 <= k < 100)
      by (pose proof (Z.mod_pos_bound (decimal_value (firstn 9 s)) 97);
          unfold k; lia).
    destruct (short_numeral_digits k Hk) as (Hd & Hv & Hl).
    destruct (IH (short_numeral k ++ skipn 9 s)) as (A & B & C & D).
    + apply digits_app; [assumption | apply digits_skipn, Hs].
    + pose proof (turn_shortens s _ Hk ltac:(lia)); lia.
    + repeat split; auto.
      * intros _; apply C; destruct (short_numeral k); [simpl in Hl; lia|].
        discriminate.
      * rewrite D, decimal_value_app, Hv.
        rewrite <- (firstn_skipn 9 s) at 3; rewrite decimal_value_app.
        unfold k; rewrite Z.add_mod, Z.mul_mod_idemp_l by lia.
        rewrite <- Z.add_mod by lia; reflexivity.
Qed.

(** Outside the strings of digits the loop need not end: ["NaN"], which
    is what any three characters without a leading number turn into, is
    longer than two characters and is turned into itself. *)
Lemma iso7064_loop_NaN (fuel : nat) : iso7064_loop fuel (js "NaN") = OutOfFuel.
Proof. induction fuel as [|fuel IH]; [reflexivity | exact IH]. Qed.

(** On a non-empty string of digits [iso7064Mod9710] returns its value
    modulo 97. *)
Lemma iso7064Mod9710_digits (s : jsstring) :
  digits s -> s <> [] ->
  iso7064Mod9710 s = Return (Num (decimal_value s mod 97)).
Proof.
  intros Hs Hne; unfold iso7064Mod9710.
  rewrite iso7064_loop_streaming by auto; cbn [bind].
  destruct (streaming_reduction_value (List.length s) s Hs (Nat.le_refl _))
    as (A & _ & C & D).
  rewrite parseInt_digits, js_rem_nonneg, D by auto using decimal_value_nonneg.
  reflexivity.
Qed.

(** C2, as the code has it: on every non-empty string of digits the
    loop of [iso7064Mod9710] ends and leaves what the streaming
    reduction leaves, at most two digits; the function returns the
    integer value of those digits modulo 97, which is the value of the
    whole input modulo 97. *)
Theorem iso7064Mod9710_streaming_mod_97 (s : jsstring) :
  digits s -> s <> [] ->
  iso7064_loop (List.length s) s
  = Return (streaming_reduction (List.length s) s)
  /\ (1 <= List.length (streaming_reduction (List.length s) s) <= 2)%nat
  /\ iso7064Mod9710 s = Return (Num (specified_mod9710 s mod 97))
  /\ iso7064Mod9710 s = Return (Num (decimal_value s mod 97)).
Proof.
  intros Hs Hne.
  destruct (streaming_reduction_value (List.length s) s Hs (Nat.le_refl _))
    as (A & B & C & D).
  split; [apply iso7064_loop_streaming; auto|].
  split.
  - specialize (C Hne).
    destruct (streaming_reduction (List.length s) s); [contradiction|].
    simpl in *; lia.
  - rewrite iso7064Mod9710_digits by assumption.
    unfold specified_mod9710; rewrite D; auto.
Qed.

Lemma iso7064Mod9710_streaming_mod_97_witness :
  digits (js "3214282912345698765432161182")
  /\ js "3214282912345698765432161182" <> []
  /\ iso7064Mod9710 (js "3214282912345698765432161182") = Return (Num 1).
Proof.
  assert (D : digits (js "3214282912345698765432161182"))
    by (repeat constructor).
  assert (N : js "3214282912345698765432161182" <> []) by discriminate.
  split; [exact D|]; split; [exact N|].
  exact (proj2 (proj2 (proj2
    (iso7064Mod9710_streaming_mod_97 _ D N)))).
Defined.

(** C2, as stated, fails: on ["98"], and on ["0000000098"] after one
    turn of the loop, two digits are left whose integer value is 98,
    and the code returns 1. *)
Lemma iso7064Mod9710_is_not_the_value_left :
  iso7064Mod9710 (js "98") = Return (Num 1)
  /\ specified_mod9710 (js "98") = 98
  /\ iso7064Mod9710 (js "0000000098") = Return (Num 1)
  /\ specified_mod9710 (js "0000000098") = 98
  /\ iso7064Mod9710 (js "98") <> Return (Num (specified_mod9710 (js "98"))).
Proof.
  repeat split; try (vm_compute; reflexivity).
  vm_compute; discriminate.
Qed.

(** On the empty string, which has no integer value, the result is
    [NaN]. *)
Lemma iso7064Mod9710_empty : iso7064Mod9710 [] = Return NaN.
Proof. reflexivity. Qed.

(** ** The rearrangement of ISO 13616 *)

Lemma toUpperCase_normalized (s : jsstring) :
  normalized s -> toUpperCase s = s.
Proof.
  unfold toUpperCase; induction 1 as [|c s Hc _ IH]; [reflexivity|].
  simpl; rewrite IH; f_equal; unfold_classes; compare_units.
Qed.

Lemma toString_letter (c : Z) :
  is_upper c = true ->
  toString (Num (c - A_CODE_POINT_AT + 10)) = two_digits (letter_value c).
Proof.
  intros H; apply in_range_bounds in H.
  unfold A_CODE_POINT_AT, letter_value.
  rewrite toString_short by lia; unfold short_numeral.
  destruct (Z.ltb_spec (c - 65 + 10) 10); [lia | reflexivity].
Qed.

(** [iso13616Prepare] on any string: upper case, the first four code
    units moved to the end, each letter replaced by its two digits. *)
Lemma iso13616Prepare_flat_map (s : jsstring) :
  iso13616Prepare s
  = flat_map numeric (skipn 4 (toUpperCase s) ++ firstn 4 (toUpperCase s)).
Proof.
  unfold iso13616Prepare, replaceAll_upper.
  change 4 with (Z.of_nat 4); rewrite slice_suffix, slice_prefix.
  apply flat_map_ext; intros c; unfold numeric.
  destruct (is_upper c) eqn:E; [apply toString_letter, E | reflexivity].
Qed.

Lemma numeric_digits (c : Z) : is_normal c = true -> digits (numeric c).
Proof.
  intros H; unfold numeric, two_digits, letter_value.
  destruct (is_upper c) eqn:E.
  - apply in_range_bounds in E.
    pose proof (Z.mod_pos_bound (c - 65 + 10) 10 ltac:(lia)).
    assert (0 <= (c - 65 + 10) / 10 < 10)
      by (split; [apply Z.div_pos; lia | apply Z.div_lt_upper_bound; lia]).
    repeat constructor; apply in_range_bounds; lia.
  - repeat constructor; unfold is_normal in H; rewrite E in H.
    rewrite orb_false_r in H; exact H.
Qed.

Lemma flat_map_numeric_digits (t : jsstring) :
  normalized t -> digits (flat_map numeric t).
Proof.
  induction 1 as [|c t Hc _ IH]; [constructor|].
  simpl; apply digits_app; [apply numeric_digits, Hc | exact IH].
Qed.

Lemma flat_map_numeric_length (t : jsstring) :
  List.length (flat_map numeric t) = (List.length t + count_letters t)%nat.
Proof.
  unfold count_letters; induction t as [|c t IH]; [reflexivity|].
  simpl; rewrite length_app, IH; unfold numeric.
  destruct (is_upper c); simpl; lia.
Qed.

Lemma normalized_rotate (k : nat) (s : jsstring) :
  normalized s -> normalized (skipn k s ++ firstn k s).
Proof.
  intros H; apply Forall_app; split;
    [apply Forall_skipn | apply Forall_firstn]; exact H.
Qed.

(** C7: for every string [s] of digits and upper-case letters,
    [iso13616Prepare s] is [s] with its first four code units moved to
    the end and every letter replaced by the two decimal digits of its
    value (ordinal minus that of [A], plus 10: 10 for [A], 35 for [Z]);
    the result holds decimal digits only, and each letter of [s]
    contributes two of them. *)
Theorem iso13616Prepare_moves_four_and_expands_letters (s : jsstring) :
  normalized s ->
  iso13616Prepare s = flat_map numeric (skipn 4 s ++ firstn 4 s)
  /\ digits (iso13616Prepare s)
  /\ List.length (iso13616Prepare s)
     = (List.length s + count_letters s)%nat
  /\ numeric 65 = js "10" /\ numeric 90 = js "35".
Proof.
  intros H.
  assert (E : iso13616Prepare s = flat_map numeric (skipn 4 s ++ firstn 4 s))
    by (rewrite iso13616Prepare_flat_map, toUpperCase_normalized; auto).
  split; [exact E|]; rewrite E.
  split; [apply flat_map_numeric_digits, normalized_rotate, H|].
  split; [|split; reflexivity].
  rewrite flat_map_numeric_length, length_app; unfold count_letters.
  rewrite filter_app, length_app.
  rewrite <- (firstn_skipn 4 s) at 5 6.
  rewrite filter_app, !length_app; lia.
Qed.

Lemma iso13616Prepare_moves_four_and_expands_letters_witness :
  normalized (js "GB82WEST12345698765432")
  /\ iso13616Prepare (js "GB82WEST12345698765432")
     = js "3214282912345698765432161182".
Proof.
  assert (N : normalized (js "GB82WEST12345698765432"))
    by (repeat constructor).
  split; [exact N|].
  rewrite (proj1 (iso13616Prepare_moves_four_and_expands_letters _ N)).
  reflexivity.
Defined.

(** ** The structure compiler *)

Lemma class_code_cases (a : Z) :
  is_class_code a = true ->
  a = 65 \/ a = 66 \/ a = 67 \/ a = 70 \/ a = 76 \/ a = 85 \/ a = 87.
Proof.
  unfold is_class_code.
  change (js "ABCFLUW") with [65; 66; 67; 70; 76; 85; 87]; cbn [existsb].
  rewrite !orb_true_iff, !Z.eqb_eq; intuition discriminate.
Qed.

(** The class that the compiler writes for a class code holds the
    characters that the table of the specification allows. *)
Lemma class_member_allowed (code c : Z) :
  is_class_code code = true ->
  class_member (template_format (switch_format [code])) c = allowed code c.
Proof.
  intros H; apply class_code_cases in H.
  destruct H as [-> | [-> | [-> | [-> | [-> | [-> | ->]]]]]];
    cbn; unfold allowed, is_digit, is_upper, is_lower; cbn;
    rewrite ?orb_false_r, ?orb_assoc; reflexivity.
Qed.

Lemma take_class_firstn (cls : jsstring) (n : nat) :
  forall s,
    take_class cls n s
    = if (n <=? List.length s)%nat && forallb (class_member cls) (firstn n s)
      then Some (firstn n s, skipn n s) else None.
Proof.
  induction n as [|n IH]; intros s; [reflexivity|].
  destruct s as [|c r]; [reflexivity|].
  cbn [take_class firstn skipn forallb List.length].
  change (S n <=? S (List.length r))%nat with (n <=? List.length r)%nat.
  rewrite IH.
  destruct (class_member cls c), (n <=? List.length r)%nat,
    (forallb (class_member cls) (firstn n r)); reflexivity.
Qed.

Lemma parse_block_wf (a b c : Z) :
  is_digit b = true -> is_digit c = true ->
  parse_block [a; b; c]
  = compile_block (a, Z.to_nat (10 * (b - 48) + (c - 48))).
Proof.
  intros Hb Hc; unfold parse_block, compile_block; cbn [fst snd].
  change (slice 0 (Some 1) [a; b; c]) with [a].
  change (slice 1 None [a; b; c]) with [b; c].
  rewrite parseInt_digits by (repeat constructor; assumption || discriminate).
  apply in_range_bounds in Hb, Hc.
  unfold decimal_value; cbn [fold_left].
  rewrite Z2Nat.id by lia; do 2 f_equal; lia.
Qed.

Lemma class_code_dot (a : Z) : is_class_code a = true -> dot a = true.
Proof.
  intros H; apply class_code_cases in H.
  destruct H as [-> | [-> | [-> | [-> | [-> | [-> | ->]]]]]]; reflexivity.
Qed.

Lemma digit_dot (a : Z) : is_digit a = true -> dot a = true.
Proof.
  intros H; apply in_range_bounds in H.
  unfold dot, is_line_terminator; decide_units; reflexivity.
Qed.

Lemma wf_structure_step (a b c : Z) (rest : jsstring) :
  wf_structure (a :: b :: c :: rest) = true ->
  is_class_code a = true /\ is_digit b = true /\ is_digit c = true
  /\ wf_structure rest = true.
Proof.
  cbn [wf_structure]; rewrite !andb_true_iff; tauto.
Qed.

Lemma match_blocks_step (a b c : Z) (rest : jsstring) :
  match_blocks (a :: b :: c :: rest)
  = if dot a && dot b && dot c then [a; b; c] :: match_blocks rest
    else match_blocks (b :: c :: rest).
Proof. reflexivity. Qed.

Lemma blocks_step (a b c : Z) (rest : jsstring) :
  blocks (a :: b :: c :: rest)
  = (a, Z.to_nat (10 * (b - 48) + (c - 48))) :: blocks rest.
Proof. reflexivity. Qed.

(** On a well-formed descriptor the blocks that [match] finds are the
    blocks of the descriptor, and each is compiled to its group. *)
Lemma match_blocks_wf (d : jsstring) :
  wf_structure d = true ->
  map parse_block (match_blocks d) = map compile_block (blocks d).
Proof.
  pattern d; apply by_length; clear d.
  induction n as [|n IH]; intros d Hn Hwf.
  - destruct d; [reflexivity | simpl in Hn; lia].
  - destruct d as [|a [|b [|c rest]]]; try reflexivity; try discriminate.
    apply wf_structure_step in Hwf; destruct Hwf as (Ha & Hb & Hc & Hr).
    rewrite match_blocks_step, blocks_step.
    rewrite (class_code_dot a Ha), (digit_dot b Hb), (digit_dot c Hc).
    cbn [andb map]; rewrite parse_block_wf by assumption.
    rewrite IH by (simpl in Hn; assumption || lia); reflexivity.
Qed.

(** A well-formed descriptor of at least one block compiles. *)
Lemma parseStructure_wf (d : jsstring) :
  wf_structure d = true -> d <> [] ->
  parseStructure d = Return (map compile_block (blocks d)).
Proof.
  intros Hwf Hne; unfold parseStructure, String_match_blocks.
  pose proof (match_blocks_wf d Hwf) as E.
  destruct d as [|a [|b [|c rest]]]; try contradiction; try discriminate.
  apply wf_structure_step in Hwf; destruct Hwf as (Ha & Hb & Hc & Hr).
  revert E; rewrite match_blocks_step.
  rewrite (class_code_dot a Ha), (digit_dot b Hb), (digit_dot c Hc).
  cbn [andb option_map]; intros E; f_equal; exact E.
Qed.

Lemma wf_blocks_codes (d : jsstring) :
  wf_structure d = true ->
  Forall (fun b => is_class_code (fst b) = true) (blocks d).
Proof.
  pattern d; apply by_length; clear d.
  induction n as [|n IH]; intros d Hn Hwf.
  - destruct d; [constructor | simpl in Hn; lia].
  - destruct d as [|a [|b [|c rest]]]; try constructor; try discriminate.
    + apply wf_structure_step in Hwf; tauto.
    + apply IH; [simpl in Hn; lia|].
      apply wf_structure_step in Hwf; tauto.
Qed.

(** ** The compiled matcher *)

Lemma forallb_ext {A} (f g : A -> bool) (l : list A) :
  (forall x, f x = g x) -> forallb f l = forallb g l.
Proof.
  intros H; induction l as [|x l IH]; [reflexivity|].
  simpl; rewrite H, IH; reflexivity.
Qed.

Lemma match_group_compile (code : Z) (n : nat) (s : jsstring) :
  is_class_code code = true ->
  match_group (compile_block (code, n)) s
  = if (n <=? List.length s)%nat && forallb (allowed code) (firstn n s)
    then Some (firstn n s, skipn n s) else None.
Proof.
  intros H; unfold match_group, compile_block, quantifier_count.
  cbn [fst snd format repeats].
  destruct (Z.leb_spec 0 (Z.of_nat n)); [|lia].
  rewrite Nat2Z.id, take_class_firstn.
  rewrite (forallb_ext _ (allowed code) _ (fun c => class_member_allowed code c H)).
  reflexivity.
Qed.

(** The compiled expression matches the strings that fit the blocks,
    and captures the segments. *)
Lemma match_groups_fits (bs : list (Z * nat)) :
  Forall (fun b => is_class_code (fst b) = true) bs ->
  forall s,
    match_groups (map compile_block bs) s
    = if fits bs s then Some (cut (map snd bs) s) else None.
Proof.
  induction 1 as [|[code n] bs Hc _ IH]; intros s.
  - destruct s; reflexivity.
  - cbn [map match_groups fits cut snd]; cbn [fst] in Hc.
    rewrite match_group_compile by assumption.
    destruct ((n <=? List.length s)%nat
              && forallb (allowed code) (firstn n s)); [|reflexivity].
    rewrite IH; cbn [andb]; destruct (fits bs (skipn n s)); reflexivity.
Qed.

Lemma fits_length (bs : list (Z * nat)) :
  forall s, fits bs s = true -> List.length s = list_sum (map snd bs).
Proof.
  induction bs as [|[code n] bs IH]; intros s H.
  - destruct s; [reflexivity | discriminate].
  - cbn [fits] in H; rewrite !andb_true_iff in H.
    destruct H as [[Hn _] Hr]; apply Nat.leb_le in Hn.
    apply IH in Hr; rewrite length_skipn in Hr.
    simpl; lia.
Qed.

Lemma allowed_alnum (code c : Z) : allowed code c = true -> is_alnum c = true.
Proof.
  unfold allowed, is_alnum.
  repeat match goal with
    | |- context [code =? ?k] => destruct (code =? k)
    end;
    destruct (is_digit c), (is_upper c), (is_lower c); cbn; congruence.
Qed.

Lemma fits_alnum (bs : list (Z * nat)) :
  forall s, fits bs s = true -> Forall (fun c => is_alnum c = true) s.
Proof.
  induction bs as [|[code n] bs IH]; intros s H.
  - destruct s; [constructor | discriminate].
  - cbn [fits] in H; rewrite !andb_true_iff in H.
    destruct H as [[_ Ha] Hr].
    rewrite <- (firstn_skipn n s); apply Forall_app; split; [|apply IH, Hr].
    rewrite forallb_forall in Ha; apply Forall_forall; intros c Hc.
    apply (allowed_alnum code), Ha, Hc.
Qed.

Lemma concat_cut (bs : list (Z * nat)) :
  forall s, fits bs s = true -> List.concat (cut (map snd bs) s) = s.
Proof.
  induction bs as [|[code n] bs IH]; intros s H.
  - destruct s; [reflexivity | discriminate].
  - cbn [fits] in H; rewrite !andb_true_iff in H.
    destruct H as [_ Hr]; cbn [map cut List.concat snd].
    rewrite IH by assumption; apply firstn_skipn.
Qed.

Lemma match_blocks_count (d : jsstring) :
  Forall (fun c => dot c = true) d ->
  List.length (match_blocks d) = (List.length d / 3)%nat.
Proof.
  pattern d; apply by_length; clear d.
  induction n as [|n IH]; intros d Hn Hd.
  - destruct d; [reflexivity | simpl in Hn; lia].
  - destruct d as [|a [|b [|c rest]]]; try reflexivity.
    inversion Hd as [|? ? Ha H1]; subst.
    inversion H1 as [|? ? Hb H2]; subst.
    inversion H2 as [|? ? Hc H3]; subst.
    rewrite match_blocks_step, Ha, Hb, Hc; cbn [andb List.length].
    rewrite IH by (simpl in Hn; assumption || lia).
    change (S (S (S (List.length rest)))) with (3 + List.length rest)%nat.
    replace (3 + List.length rest)%nat with (List.length rest + 1 * 3)%nat
      by lia.
    rewrite Nat.div_add by lia; lia.
Qed.

Lemma match_blocks_short (d : jsstring) :
  (List.length d < 3)%nat -> match_blocks d = [].
Proof.
  destruct d as [|a [|b [|c rest]]]; try reflexivity; simpl; lia.
Qed.

(** A scan that finds a block has three successive characters free of
    line terminators before it, and conversely. *)
Lemma match_blocks_finds (d : jsstring) :
  match_blocks d <> [] -> has_complete_block d.
Proof.
  pattern d; apply by_length; clear d.
  induction n as [|n IH]; intros d Hn H.
  - destruct d; [contradiction H; reflexivity | simpl in Hn; lia].
  - destruct d as [|x [|y [|z rest]]]; try (contradiction H; reflexivity).
    rewrite match_blocks_step in H.
    destruct (dot x) eqn:Dx, (dot y) eqn:Dy, (dot z) eqn:Dz;
      cbn [andb] in H;
      try (destruct (IH (y :: z :: rest)) as (p & a & b & c & q & E & D);
           [simpl in Hn |- *; lia | exact H |];
           exists (x :: p), a, b, c, q; rewrite E; split; [reflexivity|];
           exact D).
    exists [], x, y, z, rest; auto.
Qed.

Lemma match_blocks_complete (d : jsstring) :
  has_complete_block d -> match_blocks d <> [].
Proof.
  pattern d; apply by_length; clear d.
  induction n as [|n IH]; intros d Hn (p & a & b & c & q & E & Da & Db & Dc).
  - subst d; rewrite length_app in Hn; simpl in Hn; lia.
  - destruct p as [|x p]; cbn [app] in E; subst d.
    + rewrite match_blocks_step, Da, Db, Dc; discriminate.
    + assert (R : exists y z rest, p ++ a :: b :: c :: q = y :: z :: rest).
      { destruct p as [|y [|z p]]; cbn [app]; eauto. }
      destruct R as (y & z & rest & R); rewrite R.
      rewrite match_blocks_step.
      destruct (dot x && dot y && dot z); [discriminate|].
      rewrite <- R; apply IH.
      * cbn [List.length] in Hn; lia.
      * exists p, a, b, c, q; auto.
Qed.

Lemma match_blocks_nil (d : jsstring) :
  match_blocks d = [] <-> ~ has_complete_block d.
Proof.
  split.
  - intros E H; exact (match_blocks_complete d H E).
  - intros H; destruct (match_blocks d) eqn:E; [reflexivity|].
    exfalso; apply H, match_blocks_finds; rewrite E; discriminate.
Qed.

Lemma complete_blocks_step (a b c : Z) (rest : jsstring) :
  complete_blocks (a :: b :: c :: rest) = [a; b; c] :: complete_blocks rest.
Proof.
  unfold complete_blocks.
  change (List.length (a :: b :: c :: rest))
    with (3 + List.length rest)%nat.
  replace (3 + List.length rest)%nat with (List.length rest + 1 * 3)%nat
    by lia.
  rewrite Nat.div_add by lia.
  replace (List.length rest / 3 + 1)%nat with (S (List.length rest / 3))
    by lia.
  cbn [seq map]; f_equal.
  rewrite <- seq_shift, map_map; apply map_ext; intros i.
  replace (3 * S i)%nat with (3 + 3 * i)%nat by lia; reflexivity.
Qed.

Lemma complete_blocks_short (d : jsstring) :
  (List.length d < 3)%nat -> complete_blocks d = [].
Proof.
  intros H; unfold complete_blocks.
  rewrite Nat.div_small by exact H; reflexivity.
Qed.

(** On a descriptor free of line terminators the scan finds the
    complete blocks, by position. *)
Lemma match_blocks_positions (d : jsstring) :
  Forall (fun c => dot c = true) d -> match_blocks d = complete_blocks d.
Proof.
  pattern d; apply by_length; clear d.
  induction n as [|n IH]; intros d Hn Hd.
  - destruct d; [reflexivity | simpl in Hn; lia].
  - destruct d as [|a [|b [|c rest]]]; try reflexivity.
    inversion Hd as [|? ? Ha H1]; subst.
    inversion H1 as [|? ? Hb H2]; subst.
    inversion H2 as [|? ? Hc H3]; subst.
    rewrite match_blocks_step, complete_blocks_step, Ha, Hb, Hc.
    cbn [andb]; rewrite IH by (simpl in Hn; assumption || lia).
    reflexivity.
Qed.

Lemma parseStructure_cases (d : jsstring) :
  (match_blocks d = [] /\ parseStructure d = Throw parse_error)
  \/ (match_blocks d <> []
      /\ parseStructure d = Return (map parse_block (match_blocks d))).
Proof.
  unfold parseStructure, String_match_blocks.
  destruct (match_blocks d) eqn:E; cbn [option_map].
  - left; split; reflexivity.
  - right; split; [discriminate | reflexivity].
Qed.

(** C6, as the code has it: the compiler throws exactly when the
    descriptor holds no complete block, that is no three successive
    characters free of line terminators, and returns a matcher exactly
    when it holds one; every descriptor of fewer than three characters
    makes it throw; on a descriptor of three characters or more, none a
    line terminator, it throws nothing, whatever the class codes and
    whether or not the length is a multiple of 3: it returns one group
    for each complete block of three characters, the group of index [i]
    compiled from the three characters at offset [3 * i]. *)
Theorem parseStructure_throws_only_without_a_block (d : jsstring) :
  (parseStructure d = Throw parse_error <-> ~ has_complete_block d)
  /\ ((exists re, parseStructure d = Return re) <-> has_complete_block d)
  /\ ((List.length d < 3)%nat -> parseStructure d = Throw parse_error)
  /\ (Forall (fun c => dot c = true) d -> (3 <= List.length d)%nat ->
      exists re, parseStructure d = Return re
                 /\ re = map parse_block (complete_blocks d)
                 /\ List.length re = (List.length d / 3)%nat).
Proof.
  split; [|split; [|split]].
  - rewrite <- match_blocks_nil.
    destruct (parseStructure_cases d) as [[M E]|[M E]]; rewrite E; split;
      auto; try discriminate.
    intros N; contradiction.
  - destruct (parseStructure_cases d) as [[M E]|[M E]]; rewrite E; split.
    + intros [re H]; discriminate.
    + intros H; apply match_blocks_nil in M; contradiction.
    + intros _; apply match_blocks_finds, M.
    + intros _; eexists; reflexivity.
  - intros H; destruct (parseStructure_cases d) as [[M E]|[M E]];
      [exact E|].
    rewrite match_blocks_short in M by assumption; contradiction.
  - intros Hd Hl; pose proof (match_blocks_count d Hd) as C.
    destruct (parseStructure_cases d) as [[M E]|[M E]].
    + assert (1 <= List.length d / 3)%nat
        by (apply Nat.div_le_lower_bound; lia).
      rewrite M in C; change (List.length (@nil jsstring)) with 0%nat in C.
      lia.
    + eexists; split; [exact E|].
      split; [rewrite match_blocks_positions by exact Hd; reflexivity|].
      rewrite length_map; exact C.
Qed.

Lemma parseStructure_throws_only_without_a_block_witness :
  ((List.length (js "F0") < 3)%nat
   /\ parseStructure (js "F0") = Throw parse_error)
  /\ (Forall (fun c => dot c = true) (js "F03F07F02")
      /\ (3 <= List.length (js "F03F07F02"))%nat
      /\ exists re, parseStructure (js "F03F07F02") = Return re
                    /\ re = map parse_block (complete_blocks (js "F03F07F02"))
                    /\ List.length re = 3%nat).
Proof.
  assert (S : (List.length (js "F0") < 3)%nat) by (simpl; lia).
  assert (D : Forall (fun c => dot c = true) (js "F03F07F02"))
    by (repeat constructor).
  assert (L : (3 <= List.length (js "F03F07F02"))%nat) by (simpl; lia).
  split; [split; [exact S|] | split; [exact D | split; [exact L|]]].
  - exact (proj1 (proj2 (proj2
             (parseStructure_throws_only_without_a_block (js "F0")))) S).
  - exact (proj2 (proj2 (proj2
             (parseStructure_throws_only_without_a_block (js "F03F07F02"))))
             D L).
Defined.

(** C6, as stated, fails: the class code [X] is not one of the seven,
    and the length of ["F03F1"] is not a multiple of 3; both compile.
    The first matcher accepts five characters of the word
    [undefined]. *)
Lemma parseStructure_compiles_unknown_code_and_partial_block :
  is_class_code 88 = false
  /\ parseStructure (js "X05") = Return [{| format := None; repeats := Num 5 |}]
  /\ RegExp_test [{| format := None; repeats := Num 5 |}] (js "undef") = true
  /\ (List.length (js "F03F1") mod 3 <> 0)%nat
  /\ parseStructure (js "F03F1")
     = Return [{| format := Some (js "0-9"); repeats := Num 3 |}].
Proof.
  repeat split; try (vm_compute; reflexivity).
  vm_compute; discriminate.
Qed.

(** ** The country table *)

Lemma COUNTRIES_ok : forallb registered_ok COUNTRIES = true.
Proof. vm_compute; reflexivity. Qed.

(** As the tests of the library check: [isValid] holds of the example
    of every entry, and fails once its last digit is raised by one,
    modulo 10. *)
Lemma COUNTRIES_examples :
  forallb
    (fun entry =>
       let num := Specification.example (snd entry) in
       let last := slice (-1) None num in
       let other :=
         slice 0 (Some (-1)) num
           ++ toString (js_rem (js_add (parseInt last) 1) 10) in
       match isValid (VString num), isValid (VString other) with
       | Return true, Return false => true
       | _, _ => false
       end)
    COUNTRIES = true.
Proof. vm_compute; reflexivity. Qed.

Lemma assoc_In key table spec :
  assoc key table = Some spec -> In (key, spec) table.
Proof.
  induction table as [|[k v] rest IH]; [discriminate|].
  cbn [assoc]; destruct (str_eqb k key) eqn:E.
  - apply str_eqb_eq in E; subst; intros H; inversion H; left; reflexivity.
  - intros H; right; auto.
Qed.

Lemma registered_facts key spec :
  In (key, spec) COUNTRIES ->
  key = Specification.countryCode spec
  /\ wf_specification spec = true
  /\ Z.of_nat (list_sum (block_lengths (Specification.structure spec)))
     = Specification.length spec - 4.
Proof.
  intros H; pose proof COUNTRIES_ok as A.
  rewrite forallb_forall in A; specialize (A _ H).
  unfold registered_ok in A; cbn [fst snd] in A.
  rewrite !andb_true_iff, str_eqb_eq, Z.eqb_eq in A; tauto.
Qed.

Lemma wf_specification_facts spec :
  wf_specification spec = true ->
  wf_countryCode (Specification.countryCode spec) = true
  /\ wf_structure (Specification.structure spec) = true
  /\ Specification.structure spec <> [].
Proof.
  unfold wf_specification; rewrite !andb_true_iff, negb_true_iff.
  intros [[A B] C]; repeat split; auto.
  intros E; rewrite E in C; discriminate.
Qed.

(** The test of the compiled matcher of a well-formed descriptor. *)
Lemma RegExp_test_fits (d s : jsstring) :
  wf_structure d = true ->
  RegExp_test (map compile_block (blocks d)) s = fits (blocks d) s.
Proof.
  intros H; unfold RegExp_test, RegExp_exec.
  rewrite match_groups_fits by (apply wf_blocks_codes, H).
  destruct (fits (blocks d) s); reflexivity.
Qed.

Lemma parseStructure_nonempty (d : jsstring) re :
  parseStructure d = Return re -> d <> [].
Proof. intros H E; subst; discriminate. Qed.

(** ** The methods of a specification *)

Lemma and_then_true (a : bool) (b : outcome bool) :
  and_then a b = Return true <-> a = true /\ b = Return true.
Proof.
  destruct a; cbn [and_then]; split.
  - intros H; split; [reflexivity | exact H].
  - intros [_ H]; exact H.
  - discriminate.
  - intros [H _]; discriminate.
Qed.

Lemma iso7064Mod9710_returns (s : jsstring) :
  digits s -> exists r, iso7064Mod9710 s = Return r.
Proof.
  intros H; destruct s as [|c r].
  - exists NaN; reflexivity.
  - eexists; apply iso7064Mod9710_digits; [exact H | discriminate].
Qed.

Lemma number_eqb_one (r : number) : number_eqb r (Num 1) = true <-> r = Num 1.
Proof.
  destruct r as [|z]; cbn [number_eqb]; [split; discriminate|].
  rewrite Z.eqb_eq; split; [intros ->; reflexivity | intros H; inversion H; auto].
Qed.

Lemma iso13616Prepare_digits (s : jsstring) :
  normalized s -> digits (iso13616Prepare s).
Proof.
  intros H; rewrite iso13616Prepare_flat_map, toUpperCase_normalized by auto.
  apply flat_map_numeric_digits, normalized_rotate, H.
Qed.

Section WellFormedDescriptor.

(** A specification whose descriptor is well formed and has a block. *)
Variable spec : Specification.t.
Hypothesis descriptor_wf : wf_structure (Specification.structure spec) = true.
Hypothesis descriptor_block : Specification.structure spec <> [].

Lemma regex_wf :
  Specification.regex spec
  = Return (map compile_block (blocks (Specification.structure spec))).
Proof. apply parseStructure_wf; assumption. Qed.

Lemma isValidBBAN_true bban :
  Specification.isValidBBAN spec bban = Return true ->
  Specification.length spec - 4 = len bban
  /\ fits (blocks (Specification.structure spec)) bban = true.
Proof.
  unfold Specification.isValidBBAN; rewrite regex_wf; cbn [bind].
  rewrite RegExp_test_fits by assumption.
  intros H; apply and_then_true in H; destruct H as [H1 H2].
  apply Z.eqb_eq in H1; inversion H2; auto.
Qed.

Lemma isValid_true iban :
  Specification.isValid spec iban = Return true <->
  Specification.length spec = len iban
  /\ Specification.countryCode spec = slice 0 (Some 2) iban
  /\ fits (blocks (Specification.structure spec)) (slice 4 None iban) = true
  /\ iso7064Mod9710 (iso13616Prepare iban) = Return (Num 1).
Proof.
  unfold Specification.isValid; rewrite regex_wf; cbn [bind].
  rewrite RegExp_test_fits by assumption.
  rewrite !and_then_true, Z.eqb_eq, str_eqb_eq.
  assert (E : (let* r := iso7064Mod9710 (iso13616Prepare iban) in
               Return (number_eqb r (Num 1))) = Return true
              <-> iso7064Mod9710 (iso13616Prepare iban) = Return (Num 1)).
  { destruct (iso7064Mod9710 (iso13616Prepare iban)) as [r| |]; cbn [bind];
      try (split; discriminate).
    split; intros H; inversion H as [H'].
    - apply number_eqb_one in H'; subst; reflexivity.
    - reflexivity. }
  rewrite E; tauto.
Qed.

Lemma Specification_isValid_returns iban :
  normalized iban -> exists b, Specification.isValid spec iban = Return b.
Proof.
  intros Hn; unfold Specification.isValid; rewrite regex_wf; cbn [bind].
  destruct (iso7064Mod9710_returns _ (iso13616Prepare_digits _ Hn)) as [r ->].
  cbn [bind].
  destruct (Specification.length spec =? len iban); cbn [and_then]; eauto.
  destruct (str_eqb _ _); cbn [and_then]; eauto.
  destruct (RegExp_test _ _); cbn [and_then]; eauto.
Qed.

Lemma Specification_isValidBBAN_returns bban :
  exists b, Specification.isValidBBAN spec bban = Return b.
Proof.
  unfold Specification.isValidBBAN; rewrite regex_wf; cbn [bind].
  destruct (Specification.length spec - 4 =? len bban); cbn [and_then]; eauto.
Qed.

End WellFormedDescriptor.

(** C10: the compiled matcher of a well-formed descriptor accepts only
    strings whose length is the sum of the lengths of the blocks; when
    that sum is the declared length less 4, [isValidBBAN] returns what
    the test of the matcher returns, the comparison of lengths adding
    nothing; and this is so for every country of the table. *)
Theorem matcher_fixes_the_length_and_isValidBBAN_is_the_matcher :
  (forall d re s,
      wf_structure d = true -> parseStructure d = Return re ->
      RegExp_test re s = true ->
      List.length s = list_sum (block_lengths d))
  /\ (forall spec re bban,
         wf_structure (Specification.structure spec) = true ->
         Specification.regex spec = Return re ->
         Z.of_nat (list_sum (block_lengths (Specification.structure spec)))
         = Specification.length spec - 4 ->
         Specification.isValidBBAN spec bban = Return (RegExp_test re bban))
  /\ (forall key spec bban,
         In (key, spec) COUNTRIES ->
         exists re,
           Specification.regex spec = Return re
           /\ Specification.isValidBBAN spec bban
              = Return (RegExp_test re bban)).
Proof.
  assert (A : forall d re s,
             wf_structure d = true -> parseStructure d = Return re ->
             RegExp_test re s = true ->
             List.length s = list_sum (block_lengths d)).
  { intros d re s Hwf Hre Ht.
    rewrite parseStructure_wf in Hre
      by (eauto using parseStructure_nonempty).
    inversion Hre; subst re.
    rewrite RegExp_test_fits in Ht by assumption.
    apply fits_length, Ht. }
  assert (B : forall spec re bban,
             wf_structure (Specification.structure spec) = true ->
             Specification.regex spec = Return re ->
             Z.of_nat (list_sum (block_lengths (Specification.structure spec)))
             = Specification.length spec - 4 ->
             Specification.isValidBBAN spec bban
             = Return (RegExp_test re bban)).
  { intros spec re bban Hwf Hre Hsum.
    unfold Specification.isValidBBAN; rewrite Hre; cbn [bind].
    destruct (Z.eqb_spec (Specification.length spec - 4) (len bban)) as [E|E];
      [reflexivity|].
    cbn [and_then]; destruct (RegExp_test re bban) eqn:T; [|reflexivity].
    exfalso; apply E; rewrite <- Hsum; unfold len.
    rewrite (A _ _ _ Hwf Hre T); reflexivity. }
  split; [exact A|]; split; [exact B|].
  intros key spec bban Hin.
  destruct (registered_facts _ _ Hin) as (_ & Hwf & Hsum).
  destruct (wf_specification_facts _ Hwf) as (_ & Hd & Hne).
  eexists; split; [apply regex_wf; assumption|].
  apply B; auto using regex_wf.
Qed.

Lemma matcher_fixes_the_length_and_isValidBBAN_is_the_matcher_witness :
  wf_structure (js "U04F10") = true
  /\ parseStructure (js "U04F10")
     = Return [{| format := Some (js "A-Z"); repeats := Num 4 |};
               {| format := Some (js "0-9"); repeats := Num 10 |}]
  /\ RegExp_test [{| format := Some (js "A-Z"); repeats := Num 4 |};
                  {| format := Some (js "0-9"); repeats := Num 10 |}]
       (js "INGB0002445588") = true
  /\ List.length (js "INGB0002445588")
     = list_sum (block_lengths (js "U04F10")).
Proof.
  split; [reflexivity|]; split; [reflexivity|]; split; [reflexivity|].
  apply (proj1 matcher_fixes_the_length_and_isValidBBAN_is_the_matcher
           (js "U04F10")
           [{| format := Some (js "A-Z"); repeats := Num 4 |};
            {| format := Some (js "0-9"); repeats := Num 10 |}]
           (js "INGB0002445588")); reflexivity.
Defined.

Lemma length_cut (bs : list (Z * nat)) :
  forall s, fits bs s = true ->
  map (@List.length Z) (cut (map snd bs) s) = map snd bs.
Proof.
  induction bs as [|[code n] bs IH]; intros s H; [reflexivity|].
  cbn [fits] in H; rewrite !andb_true_iff in H.
  destruct H as [[Hn _] Hr]; apply Nat.leb_le in Hn.
  cbn [map cut snd]; rewrite IH by assumption.
  rewrite length_firstn, Nat.min_l by assumption; reflexivity.
Qed.

(** C5: for a specification with a well-formed descriptor and any IBAN,
    when the part of the IBAN from offset 4 matches the compiled
    matcher, the captures are that part cut into segments of the
    lengths of the blocks, in the order of the blocks, and [toBBAN]
    returns them joined with the separator; when it does not match,
    [toBBAN] throws "Invalid IBAN"; and
    [toBBAN("BE68 5390 0754 7034", "-")] is ["539-0075470-34"]. *)
Theorem toBBAN_joins_the_blocks_or_throws
  (spec : Specification.t) (iban separator : jsstring) :
  wf_structure (Specification.structure spec) = true ->
  Specification.structure spec <> [] ->
  exists re,
    Specification.regex spec = Return re
    /\ (RegExp_test re (slice 4 None iban) = true ->
        exists segments,
          RegExp_exec re (slice 4 None iban)
          = Some (slice 4 None iban :: segments)
          /\ segments
             = cut (block_lengths (Specification.structure spec))
                 (slice 4 None iban)
          /\ map (@List.length Z) segments
             = block_lengths (Specification.structure spec)
          /\ List.concat segments = slice 4 None iban
          /\ Specification.toBBAN spec iban separator
             = Return (join separator segments))
    /\ (RegExp_test re (slice 4 None iban) = false ->
        Specification.toBBAN spec iban separator
        = Throw (Error (js "Invalid IBAN")))
    /\ toBBAN (js "BE68 5390 0754 7034") (Some (js "-"))
       = Return (js "539-0075470-34").
Proof.
  intros Hwf Hne; eexists; split; [apply regex_wf; assumption|].
  unfold Specification.toBBAN; rewrite regex_wf by assumption; cbn [bind].
  unfold RegExp_test, RegExp_exec.
  rewrite match_groups_fits by (apply wf_blocks_codes, Hwf).
  destruct (fits (blocks (Specification.structure spec)) (slice 4 None iban))
    eqn:F.
  - split; [|split; [discriminate | vm_compute; reflexivity]].
    intros _; eexists; split; [reflexivity|].
    split; [reflexivity|].
    split; [apply length_cut, F|].
    split; [apply concat_cut, F | reflexivity].
  - split; [discriminate|].
    split; [reflexivity | vm_compute; reflexivity].
Qed.

Lemma toBBAN_joins_the_blocks_or_throws_witness :
  wf_structure (Specification.structure Belgium) = true
  /\ Specification.structure Belgium <> []
  /\ Specification.toBBAN Belgium (js "BE68539007547034") (js "-")
     = Return (js "539-0075470-34").
Proof.
  assert (W : wf_structure (Specification.structure Belgium) = true)
    by reflexivity.
  assert (N : Specification.structure Belgium <> []) by discriminate.
  split; [exact W|]; split; [exact N|].
  destruct (toBBAN_joins_the_blocks_or_throws
              Belgium (js "BE68539007547034") (js "-") W N)
    as (re & Hre & Hyes & _).
  vm_compute in Hre; inversion Hre; subst re.
  destruct (Hyes eq_refl) as (segments & _ & -> & _ & _ & H).
  rewrite H; reflexivity.
Defined.

(** C1: for a specification whose descriptor compiles to the matcher
    [re] and for every normalized IBAN, [isValid] returns a boolean,
    never throwing, and that boolean is [true] exactly when the length
    of the IBAN is the declared length, its first two characters are the
    country code, its part from offset 4 matches [re], and the MOD 97-10
    reduction of the prepared IBAN is 1. *)
Theorem Specification_isValid_iff
  (spec : Specification.t) (re : RegExp) (iban : jsstring) :
  Specification.regex spec = Return re ->
  normalized iban ->
  exists b,
    Specification.isValid spec iban = Return b
    /\ (b = true <->
        Specification.length spec = len iban
        /\ slice 0 (Some 2) iban = Specification.countryCode spec
        /\ RegExp_test re (slice 4 None iban) = true
        /\ iso7064Mod9710 (iso13616Prepare iban) = Return (Num 1)).
Proof.
  intros Hre Hn.
  destruct (iso7064Mod9710_returns _ (iso13616Prepare_digits _ Hn))
    as [r Hr].
  unfold Specification.isValid; rewrite Hre, Hr; cbn [bind].
  destruct (Z.eqb_spec (Specification.length spec) (len iban)) as [E1|E1];
    cbn [and_then]; [|exists false; split; [reflexivity|]; split;
                       [discriminate | tauto]].
  destruct (str_eqb (Specification.countryCode spec) (slice 0 (Some 2) iban))
    eqn:E2; cbn [and_then].
  - apply str_eqb_eq in E2.
    destruct (RegExp_test re (slice 4 None iban)) eqn:E3; cbn [and_then].
    + exists (number_eqb r (Num 1)); split; [reflexivity|].
      rewrite number_eqb_one; split.
      * intros ->; auto.
      * intros (_ & _ & _ & H); inversion H; reflexivity.
    + exists false; split; [reflexivity|]; split; [discriminate|].
      intros (_ & _ & H & _); discriminate.
  - exists false; split; [reflexivity|]; split; [discriminate|].
    intros (_ & H & _); symmetry in H; apply str_eqb_eq in H; congruence.
Qed.

Lemma Specification_isValid_iff_witness :
  Specification.regex Belgium
  = Return [{| format := Some (js "0-9"); repeats := Num 3 |};
            {| format := Some (js "0-9"); repeats := Num 7 |};
            {| format := Some (js "0-9"); repeats := Num 2 |}]
  /\ normalized (js "BE68539007547034")
  /\ Specification.isValid Belgium (js "BE68539007547034") = Return true.
Proof.
  assert (N : normalized (js "BE68539007547034")) by (repeat constructor).
  split; [reflexivity|]; split; [exact N|].
  destruct (Specification_isValid_iff Belgium
              [{| format := Some (js "0-9"); repeats := Num 3 |};
               {| format := Some (js "0-9"); repeats := Num 7 |};
               {| format := Some (js "0-9"); repeats := Num 2 |}]
              (js "BE68539007547034") eq_refl N)
    as (b & Hb & Hiff).
  rewrite Hb; f_equal; apply Hiff.
  repeat split; vm_compute; reflexivity.
Defined.

(** ** Check digits *)

(** [s.slice(i, j)] for [i <= j]. *)
Lemma slice_nat (i j : nat) (s : jsstring) :
  (i <= j)%nat ->
  slice (Z.of_nat i) (Some (Z.of_nat j)) s = firstn (j - i) (skipn i s).
Proof.
  intros Hij; unfold slice, clamp_index, len.
  destruct (Z.ltb_spec (Z.of_nat i) 0); [lia|].
  destruct (Z.ltb_spec (Z.of_nat j) 0); [lia|].
  destruct (Nat.le_ge_cases i (List.length s)) as [Hi|Hi].
  - replace (Z.to_nat (Z.min (Z.of_nat i) (Z.of_nat (List.length s))))
      with i by lia.
    replace (Z.to_nat (Z.min (Z.of_nat j) (Z.of_nat (List.length s))
                       - Z.min (Z.of_nat i) (Z.of_nat (List.length s))))
      with (Nat.min (j - i) (List.length (skipn i s)))
      by (rewrite length_skipn; lia).
    apply firstn_min_length.
  - rewrite (skipn_all2 s Hi), firstn_nil.
    replace (Z.to_nat (Z.min (Z.of_nat i) (Z.of_nat (List.length s))))
      with (List.length s) by lia.
    rewrite skipn_all; apply firstn_nil.
Qed.

Lemma two_digits_facts (k : Z) :
  0 <= k < 100 ->
  is_digit (48 + k / 10) = true /\ is_digit (48 + k mod 10) = true
  /\ decimal_value (two_digits k) = k.
Proof.
  intros Hk.
  pose proof (Z.mod_pos_bound k 10 ltac:(lia)).
  assert (0 <= k / 10 < 10)
    by (split; [apply Z.div_pos; lia | apply Z.div_lt_upper_bound; lia]).
  repeat split; try (apply in_range_bounds; lia).
  unfold two_digits, decimal_value; cbn [fold_left].
  pose proof (Z.div_mod k 10 ltac:(lia)); lia.
Qed.

(** [`0${k}`.slice(-2)]: two digits, with a leading zero below 10. *)
Lemma pad_two (k : Z) :
  0 <= k < 100 ->
  slice (-2) None (js "0" ++ toString (Num k)) = two_digits k.
Proof.
  intros Hk; rewrite toString_short by assumption.
  unfold short_numeral, two_digits.
  destruct (Z.ltb_spec k 10); [|reflexivity].
  rewrite Z.div_small, Z.mod_small by lia; reflexivity.
Qed.

Lemma upper_unit_normal (c : Z) : is_normal c = true -> upper_unit c = c.
Proof. intros H; unfold_classes; compare_units. Qed.

Lemma toUpperCase_alnum (s : jsstring) :
  Forall (fun c => is_alnum c = true) s -> normalized (toUpperCase s).
Proof.
  intros H; unfold normalized, toUpperCase; apply Forall_map.
  revert H; apply Forall_impl; intros c Hc.
  unfold_classes; compare_units.
Qed.

Lemma numeric_digit (x : Z) : is_digit x = true -> numeric x = [x].
Proof.
  intros H; unfold numeric.
  replace (is_upper x) with false; [reflexivity|].
  unfold_classes; compare_units.
Qed.

(** The prepared form of an IBAN with country code [a b] and check
    digits [x y]. *)
Lemma iso13616Prepare_iban (a b x y : Z) (bban : jsstring) :
  is_upper a = true -> is_upper b = true ->
  is_digit x = true -> is_digit y = true ->
  iso13616Prepare (a :: b :: x :: y :: bban) = prepared_body a b bban ++ [x; y].
Proof.
  intros Ha Hb Hx Hy; rewrite iso13616Prepare_flat_map.
  unfold toUpperCase, prepared_body; cbn [map skipn firstn].
  rewrite !upper_unit_normal
    by (unfold is_normal; rewrite ?Ha, ?Hb, ?Hx, ?Hy, ?orb_true_r; reflexivity).
  rewrite flat_map_app; cbn [flat_map].
  rewrite (numeric_digit x Hx), (numeric_digit y Hy), app_nil_r.
  rewrite <- !app_assoc; reflexivity.
Qed.

Lemma prepared_body_digits (a b : Z) (bban : jsstring) :
  is_upper a = true -> is_upper b = true ->
  Forall (fun c => is_alnum c = true) bban ->
  digits (prepared_body a b bban).
Proof.
  intros Ha Hb H; unfold prepared_body.
  apply digits_app; [apply flat_map_numeric_digits, toUpperCase_alnum, H|].
  apply digits_app; apply numeric_digits; unfold is_normal;
    rewrite ?Ha, ?Hb, orb_true_r; reflexivity.
Qed.

Lemma decimal_value_check (body : jsstring) (k : Z) :
  0 <= k < 100 ->
  decimal_value (body ++ two_digits k) = decimal_value body * 100 + k.
Proof.
  intros Hk; rewrite decimal_value_app.
  destruct (two_digits_facts k Hk) as (_ & _ & ->); reflexivity.
Qed.

(** The arithmetic of the check digits. *)
Lemma check_digits_sum (w : Z) : (w + (98 - w mod 97)) mod 97 = 1.
Proof.
  pose proof (Z.div_mod w 97 ltac:(lia)).
  replace (w + (98 - w mod 97)) with (1 + (w / 97 + 1) * 97) by lia.
  rewrite Z.mod_add by lia; reflexivity.
Qed.

Lemma check_digits_unique (w k : Z) :
  2 <= k <= 98 -> (w + k) mod 97 = 1 -> 98 - w mod 97 = k.
Proof.
  intros Hk H.
  pose proof (Z.mod_pos_bound w 97 ltac:(lia)).
  rewrite <- Z.add_mod_idemp_l in H by lia.
  pose proof (Z.div_mod (w mod 97 + k) 97 ltac:(lia)); lia.
Qed.

Lemma wf_countryCode_shape (cc : jsstring) :
  wf_countryCode cc = true ->
  exists a b, cc = [a; b] /\ is_upper a = true /\ is_upper b = true.
Proof.
  destruct cc as [|a [|b [|c r]]]; try discriminate.
  cbn [wf_countryCode]; rewrite andb_true_iff; intros [Ha Hb].
  exists a, b; auto.
Qed.

(** What [fromBBAN] computes for a country code [a b] and a BBAN of
    letters and digits that [isValidBBAN] accepts. *)
Lemma fromBBAN_generates spec (a b : Z) (bban : jsstring) :
  Specification.countryCode spec = [a; b] ->
  is_upper a = true -> is_upper b = true ->
  Forall (fun c => is_alnum c = true) bban ->
  Specification.isValidBBAN spec bban = Return true ->
  let r := (decimal_value (prepared_body a b bban) * 100) mod 97 in
  iso7064Mod9710 (iso13616Prepare ([a; b] ++ js "00" ++ bban)) = Return (Num r)
  /\ Specification.fromBBAN spec bban
     = Return ([a; b] ++ two_digits (98 - r) ++ bban)
  /\ iso7064Mod9710 (iso13616Prepare ([a; b] ++ two_digits (98 - r) ++ bban))
     = Return (Num 1).
Proof.
  intros Hcc Ha Hb Hal Hv r.
  pose proof (prepared_body_digits a b bban Ha Hb Hal) as Hd.
  assert (Hr : 0 <= r < 97) by (apply Z.mod_pos_bound; lia).
  assert (E0 : iso7064Mod9710 (iso13616Prepare ([a; b] ++ js "00" ++ bban))
               = Return (Num r)).
  { change ([a; b] ++ js "00" ++ bban) with (a :: b :: 48 :: 48 :: bban).
    rewrite iso13616Prepare_iban by (assumption || reflexivity).
    change [48; 48] with (two_digits 0).
    rewrite iso7064Mod9710_digits.
    - rewrite decimal_value_check, Z.add_0_r by lia; reflexivity.
    - apply digits_app; [assumption | repeat constructor].
    - intros E; apply app_eq_nil in E; destruct E; discriminate. }
  destruct (two_digits_facts (98 - r) ltac:(lia)) as (Hx & Hy & _).
  split; [exact E0|]; split.
  - unfold Specification.fromBBAN; rewrite Hv, Hcc; cbn [bind negb].
    rewrite E0; cbn [bind js_sub].
    rewrite pad_two by lia; reflexivity.
  - change ([a; b] ++ two_digits (98 - r) ++ bban)
      with (a :: b :: (48 + (98 - r) / 10) :: (48 + (98 - r) mod 10) :: bban).
    rewrite iso13616Prepare_iban by assumption.
    change [48 + (98 - r) / 10; 48 + (98 - r) mod 10]
      with (two_digits (98 - r)).
    rewrite iso7064Mod9710_digits.
    + rewrite decimal_value_check by lia.
      unfold r; rewrite check_digits_sum; reflexivity.
    + apply digits_app; [assumption | repeat constructor; assumption].
    + intros E; apply app_eq_nil in E; destruct E; discriminate.
Qed.

(** The check digits that [fromBBAN] generates. *)
Lemma Specification_fromBBAN_check_digits (spec : Specification.t) :
  wf_specification spec = true ->
  forall bban,
    Specification.isValidBBAN spec bban = Return true ->
    exists r,
      0 <= r < 97
      /\ iso7064Mod9710
           (iso13616Prepare
              (Specification.countryCode spec ++ js "00" ++ bban))
         = Return (Num r)
      /\ Specification.fromBBAN spec bban
         = Return (Specification.countryCode spec
                     ++ two_digits (98 - r) ++ bban)
      /\ iso7064Mod9710
           (iso13616Prepare
              (Specification.countryCode spec
                 ++ two_digits (98 - r) ++ bban))
         = Return (Num 1).
Proof.
  intros Hspec bban Hv.
  destruct (wf_specification_facts _ Hspec) as (Hcc & Hwf & Hne).
  destruct (wf_countryCode_shape _ Hcc) as (a & b & Ecc & Ha & Hb).
  destruct (isValidBBAN_true _ Hwf Hne _ Hv) as [_ Hf].
  apply fits_alnum in Hf; rewrite Ecc.
  destruct (fromBBAN_generates spec a b bban Ecc Ha Hb Hf Hv)
    as (E0 & E1 & E2).
  eexists; split; [|split; [exact E0 | split; [exact E1 | exact E2]]].
  apply Z.mod_pos_bound; lia.
Qed.

(** [fromBBAN] rebuilds a valid IBAN whose check digits are those of a
    number from 2 to 98. *)
Lemma Specification_fromBBAN_round_trip (spec : Specification.t) :
  wf_specification spec = true ->
  forall iban k,
    Specification.isValid spec iban = Return true ->
    2 <= k <= 98 ->
    slice 2 (Some 4) iban = two_digits k ->
    Specification.fromBBAN spec (slice 4 None iban) = Return iban.
Proof.
  intros Hspec iban k Hvalid Hk Hcheck.
  destruct (wf_specification_facts _ Hspec) as (Hcc & Hwf & Hne).
  destruct (wf_countryCode_shape _ Hcc) as (a & b & Ecc & Ha & Hb).
  apply (isValid_true _ Hwf Hne) in Hvalid.
  destruct Hvalid as (Hlen & Hcode & Hfit & Hmod).
  change 2 with (Z.of_nat 2) in Hcheck, Hcode.
  change 4 with (Z.of_nat 4) in Hcheck, Hfit |- *.
  change 0 with (Z.of_nat 0) in Hcode.
  rewrite slice_nat in Hcheck, Hcode by lia.
  rewrite slice_suffix in Hfit |- *.
  destruct (two_digits_facts k ltac:(lia)) as (Hx & Hy & _).
  assert (Hxy : two_digits k = [48 + k / 10; 48 + k mod 10])
    by reflexivity.
  revert Hx Hy Hxy; generalize (48 + k / 10) (48 + k mod 10).
  intros x y Hx Hy Hxy; rewrite Hxy in Hcheck.
  destruct iban as [|i0 [|i1 [|i2 [|i3 bban]]]]; try discriminate.
  cbn [skipn firstn Nat.sub] in *.
  rewrite Ecc in Hcode.
  injection Hcode as <- <-; injection Hcheck as -> ->.
  assert (Hv : Specification.isValidBBAN spec bban = Return true).
  { unfold Specification.isValidBBAN.
    rewrite regex_wf by assumption; cbn [bind].
    rewrite RegExp_test_fits, Hfit by assumption.
    replace (Specification.length spec - 4 =? len bban) with true;
      [reflexivity|].
    symmetry; apply Z.eqb_eq; rewrite Hlen; unfold len.
    cbn [List.length]; lia. }
  pose proof (fits_alnum _ _ Hfit) as Hal.
  destruct (fromBBAN_generates spec a b bban Ecc Ha Hb Hal Hv)
    as (_ & E1 & _).
  rewrite E1; f_equal.
  rewrite iso13616Prepare_iban in Hmod by assumption.
  rewrite <- Hxy in Hmod.
  rewrite iso7064Mod9710_digits in Hmod.
  - rewrite decimal_value_check in Hmod by lia.
    injection Hmod as Hm.
    rewrite (check_digits_unique _ k Hk Hm), Hxy; reflexivity.
  - apply digits_app; [|rewrite Hxy; repeat constructor; assumption].
    apply prepared_body_digits; auto.
  - intros E; apply app_eq_nil in E; destruct E as [_ E].
    rewrite Hxy in E; discriminate.
Qed.

Lemma COUNTRIES_get_wf key spec :
  COUNTRIES_get key = Some (Own spec) -> wf_specification spec = true.
Proof.
  unfold COUNTRIES_get; destruct (assoc key COUNTRIES) as [v|] eqn:E.
  - intros H; inversion H; subst v.
    apply assoc_In, registered_facts in E; tauto.
  - destruct (existsb _ _); discriminate.
Qed.

(** C3, as the code has it: for a well-formed specification and a BBAN
    that [isValidBBAN] accepts, [fromBBAN] returns the country code, then
    98 less the MOD 97-10 reduction of the prepared
    [countryCode + "00" + bban], on two digits, then the BBAN, and the
    reduction of that IBAN, prepared, is 1; for a valid IBAN whose
    check digits are the two digits of a number from 2 to 98,
    [fromBBAN] on its part from offset 4 returns the IBAN; and so do
    the exported functions: when [isValid(x)] is [true] and the check
    digits of the electronic format of [x] are those of a number from 2
    to 98, [fromBBAN] on its country code and its part from offset 4
    returns that electronic format. *)
Theorem fromBBAN_check_digits_and_round_trip :
  (forall spec,
      wf_specification spec = true ->
      (forall bban,
          Specification.isValidBBAN spec bban = Return true ->
          exists r,
            0 <= r < 97
            /\ iso7064Mod9710
                 (iso13616Prepare
                    (Specification.countryCode spec ++ js "00" ++ bban))
               = Return (Num r)
            /\ Specification.fromBBAN spec bban
               = Return (Specification.countryCode spec
                           ++ two_digits (98 - r) ++ bban)
            /\ iso7064Mod9710
                 (iso13616Prepare
                    (Specification.countryCode spec
                       ++ two_digits (98 - r) ++ bban))
               = Return (Num 1))
      /\ (forall iban k,
             Specification.isValid spec iban = Return true ->
             2 <= k <= 98 ->
             slice 2 (Some 4) iban = two_digits k ->
             Specification.fromBBAN spec (slice 4 None iban) = Return iban))
  /\ (forall x k,
         isValid (VString x) = Return true ->
         2 <= k <= 98 ->
         slice 2 (Some 4) (electronicFormat x) = two_digits k ->
         fromBBAN (slice 0 (Some 2) (electronicFormat x))
           (slice 4 None (electronicFormat x))
         = Return (electronicFormat x)).
Proof.
  split.
  - intros spec Hspec; split.
    + apply Specification_fromBBAN_check_digits, Hspec.
    + apply Specification_fromBBAN_round_trip, Hspec.
  - intros x k Hvalid Hk Hcheck.
    unfold isValid in Hvalid; cbn [isString negb string_of] in Hvalid.
    unfold fromBBAN; unfold getCountry in *.
    destruct (COUNTRIES_get (slice 0 (Some 2) (electronicFormat x)))
      as [[spec|]|] eqn:E; cbn [bind call try_catch_false] in *;
      try discriminate.
    assert (Hv : Specification.isValid spec (electronicFormat x)
                 = Return true)
      by (destruct (Specification.isValid spec (electronicFormat x));
          cbn [try_catch_false] in Hvalid; congruence).
    rewrite electronicFormat_fixes_normalized.
    + apply (Specification_fromBBAN_round_trip spec
               (COUNTRIES_get_wf _ _ E) _ k Hv Hk Hcheck).
    + change 4 with (Z.of_nat 4); rewrite slice_suffix.
      apply Forall_skipn, electronicFormat_normalized.
Qed.

Lemma fromBBAN_check_digits_and_round_trip_witness :
  wf_specification Belgium = true
  /\ Specification.isValidBBAN Belgium (js "539007547034") = Return true
  /\ Specification.fromBBAN Belgium (js "539007547034")
     = Return (js "BE68539007547034").
Proof.
  split; [reflexivity|]; split; [reflexivity|].
  destruct (proj1 (proj1 fromBBAN_check_digits_and_round_trip Belgium eq_refl)
              (js "539007547034") eq_refl) as (r & _ & E0 & E1 & _).
  rewrite E1; vm_compute in E0; inversion E0; subst r; reflexivity.
Defined.

(** C3, as stated, fails in its last part: ["BE00000000000002"] is
    valid for the code, and [fromBBAN] on its country code and BBAN
    returns ["BE97000000000002"]. *)
Lemma fromBBAN_does_not_rebuild_check_digits_00 :
  isValid (VString (js "BE00000000000002")) = Return true
  /\ Specification.isValid Belgium (js "BE00000000000002") = Return true
  /\ fromBBAN (js "BE") (slice 4 None (js "BE00000000000002"))
     = Return (js "BE97000000000002")
  /\ Specification.fromBBAN Belgium (slice 4 None (js "BE00000000000002"))
     <> Return (js "BE00000000000002").
Proof.
  repeat split; try (vm_compute; reflexivity).
  vm_compute; discriminate.
Qed.

(** ** The predicates *)

Lemma COUNTRIES_get_own key spec :
  COUNTRIES_get key = Some (Own spec) ->
  wf_structure (Specification.structure spec) = true
  /\ Specification.structure spec <> [].
Proof.
  unfold COUNTRIES_get; destruct (assoc key COUNTRIES) as [v|] eqn:E.
  - intros H; inversion H; subst v.
    apply assoc_In, registered_facts in E.
    destruct E as (_ & E & _); apply wf_specification_facts in E; tauto.
  - destruct (existsb _ _); discriminate.
Qed.

(** The predicate [isValid] returns a boolean on every input. *)
Lemma isValid_returns (iban : value) : exists b, isValid iban = Return b.
Proof.
  unfold isValid; destruct (isString iban); cbn [negb]; [|eauto].
  unfold getCountry.
  destruct (COUNTRIES_get _) as [[spec|]|] eqn:E; cbn [bind call];
    [|exists false; reflexivity ..].
  destruct (COUNTRIES_get_own _ _ E) as [Hwf Hne].
  destruct (Specification_isValid_returns spec Hwf Hne _
              (electronicFormat_normalized (string_of iban))) as [b ->].
  exists b; reflexivity.
Qed.

(** C4 at the input where the code departs from it: [isValid] returns a
    boolean on every input, and [isValidBBAN] returns [false] when the
    BBAN is not a string and a boolean when the country code is in the
    table; for a country code that is not, as ["ZZ"], [isValidBBAN]
    throws the error of [getCountry], which only [isValid] catches. *)
Theorem isValidBBAN_throws_on_unknown_country :
  (forall iban, exists b, isValid iban = Return b)
  /\ (forall countryCode bban,
         isString bban = false -> isValidBBAN countryCode bban = Return false)
  /\ (forall countryCode spec bban,
         COUNTRIES_get countryCode = Some (Own spec) ->
         exists b, isValidBBAN countryCode bban = Return b)
  /\ isValid (VString (js "ZZ68539007547034")) = Return false
  /\ isValidBBAN (js "ZZ") (VString (js "539007547034"))
     = Throw (Error (js "No country with code ZZ")).
Proof.
  split; [exact isValid_returns|].
  split; [intros cc bban H; unfold isValidBBAN; rewrite H; reflexivity|].
  split; [|split; vm_compute; reflexivity].
  intros cc spec bban H; unfold isValidBBAN, getCountry.
  destruct (isString bban); cbn [negb]; [|eauto].
  rewrite H; cbn [bind call].
  destruct (COUNTRIES_get_own _ _ H) as [Hwf Hne].
  apply Specification_isValidBBAN_returns; assumption.
Qed.

Lemma isValidBBAN_throws_on_unknown_country_witness :
  isValidBBAN (js "BE") (VNumber (Num 1)) = Return false
  /\ exists b, isValidBBAN (js "NL") (VString (js "INGB0002445588")) = Return b.
Proof.
  split.
  - apply (proj1 (proj2 isValidBBAN_throws_on_unknown_country)); reflexivity.
  - apply (proj1 (proj2 (proj2 isValidBBAN_throws_on_unknown_country))
             (js "NL") (snd (country "NL" 18 "U04F10" "NL91ABNA0417164300"))).
    reflexivity.
Defined.

(** * Further properties *)

(** ** Lookup in the country table *)

Lemma existsb_str_eqb (k : jsstring) (keys : list jsstring) :
  existsb (str_eqb k) keys = true <-> In k keys.
Proof.
  rewrite existsb_exists; split.
  - intros (x & Hx & E); apply str_eqb_eq in E; subst; exact Hx.
  - intros H; exists k; split; [exact H | apply str_eqb_refl].
Qed.

Lemma distinct_keys_NoDup (keys : list jsstring) :
  distinct_keys keys = true -> NoDup keys.
Proof.
  induction keys as [|k rest IH]; [constructor|].
  cbn [distinct_keys]; rewrite andb_true_iff, negb_true_iff.
  intros [H1 H2]; constructor; [|auto].
  intros Hin; apply existsb_str_eqb in Hin; congruence.
Qed.

Lemma COUNTRIES_keys : NoDup (map fst COUNTRIES).
Proof. apply distinct_keys_NoDup; vm_compute; reflexivity. Qed.

Lemma assoc_NoDup key spec (table : list (jsstring * Specification.t)) :
  NoDup (map fst table) -> In (key, spec) table ->
  assoc key table = Some spec.
Proof.
  induction table as [|[k v] rest IH]; [contradiction|].
  cbn [map fst]; intros Hnd Hin; inversion Hnd as [|? ? Hk Hrest]; subst.
  cbn [assoc]; destruct (str_eqb k key) eqn:E.
  - apply str_eqb_eq in E; subst k.
    destruct Hin as [Hin|Hin]; [inversion Hin; reflexivity|].
    exfalso; apply Hk, (in_map fst _ _ Hin).
  - destruct Hin as [Hin|Hin]; [|auto].
    inversion Hin; subst; rewrite str_eqb_refl in E; discriminate.
Qed.

Lemma COUNTRIES_get_In key spec :
  COUNTRIES_get key = Some (Own spec) <-> In (key, spec) COUNTRIES.
Proof.
  unfold COUNTRIES_get; split.
  - destruct (assoc key COUNTRIES) as [v|] eqn:E.
    + intros H; inversion H; subst; apply assoc_In, E.
    + destruct (existsb _ _); discriminate.
  - intros H; rewrite (assoc_NoDup _ _ _ COUNTRIES_keys H); reflexivity.
Qed.

Lemma COUNTRIES_get_key key spec :
  COUNTRIES_get key = Some (Own spec) -> Specification.countryCode spec = key.
Proof.
  intros H; apply COUNTRIES_get_In, registered_facts in H.
  symmetry; tauto.
Qed.

(** X1: [getCountry] returns a specification for exactly the keys of
    the table, each key once: it returns the entry stored under the key,
    whose country code is the key; for a key that is neither in the
    table nor a member of [Object.prototype] it throws "No country with
    code" followed by the key. *)
Theorem getCountry_finds_the_entries (key : jsstring) :
  (forall spec,
      In (key, spec) COUNTRIES <-> getCountry key = Return (Own spec))
  /\ (forall spec,
         getCountry key = Return (Own spec) ->
         Specification.countryCode spec = key)
  /\ (~ In key (map fst COUNTRIES) -> ~ In key Object_prototype_keys ->
      getCountry key = Throw (Error (js "No country with code " ++ key))).
Proof.
  split; [|split].
  - intros spec; rewrite <- COUNTRIES_get_In; unfold getCountry.
    destruct (COUNTRIES_get key) as [p|]; split; intros H;
      try discriminate; inversion H; reflexivity.
  - intros spec H; apply COUNTRIES_get_key; unfold getCountry in H.
    destruct (COUNTRIES_get key) as [p|]; inversion H; reflexivity.
  - intros Hk Hp; unfold getCountry, COUNTRIES_get.
    destruct (assoc key COUNTRIES) as [v|] eqn:E.
    + exfalso; apply Hk, (in_map fst _ _ (assoc_In _ _ _ E)).
    + destruct (existsb (str_eqb key) Object_prototype_keys) eqn:F;
        [|reflexivity].
      exfalso; apply Hp, existsb_str_eqb, F.
Qed.

Lemma getCountry_finds_the_entries_witness :
  getCountry (js "BE") = Return (Own Belgium)
  /\ getCountry (js "be") = Throw (Error (js "No country with code be")).
Proof.
  split.
  - apply (proj1 (getCountry_finds_the_entries (js "BE"))).
    do 6 right; left; reflexivity.
  - apply (proj2 (proj2 (getCountry_finds_the_entries (js "be")))).
    + intros H; apply existsb_str_eqb in H; vm_compute in H; discriminate.
    + intros H; apply existsb_str_eqb in H; vm_compute in H; discriminate.
Defined.

Lemma COUNTRIES_examples_ok : forallb example_ok COUNTRIES = true.
Proof. vm_compute; reflexivity. Qed.

(** X2: the table that [availableCountries] returns has no key twice,
    and each entry is stored under its country code, which is two
    upper-case letters; its descriptor is well formed, with blocks whose
    lengths add up to the declared length less 4; the declared length is
    the length of the example and lies between 15 and 32; and [isValid]
    holds of the example. *)
Theorem availableCountries_entries :
  NoDup (map fst availableCountries)
  /\ forall key spec,
       In (key, spec) availableCountries ->
       key = Specification.countryCode spec
       /\ wf_countryCode key = true
       /\ wf_structure (Specification.structure spec) = true
       /\ Z.of_nat (list_sum (block_lengths (Specification.structure spec)))
          = Specification.length spec - 4
       /\ len (Specification.example spec) = Specification.length spec
       /\ 15 <= Specification.length spec <= 32
       /\ isValid (VString (Specification.example spec)) = Return true.
Proof.
  split; [exact COUNTRIES_keys|].
  unfold availableCountries; intros key spec H.
  destruct (registered_facts _ _ H) as (Hk & Hwf & Hsum).
  destruct (wf_specification_facts _ Hwf) as (Hcc & Hd & _).
  pose proof COUNTRIES_examples_ok as A.
  rewrite forallb_forall in A; specialize (A _ H).
  unfold example_ok in A; cbn [snd] in A.
  rewrite !andb_true_iff, Z.eqb_eq, !Z.leb_le in A.
  destruct A as [[[A1 A2] A3] A4].
  repeat split; auto; try congruence.
  destruct (isValid (VString (Specification.example spec))) as [[|]| |];
    congruence.
Qed.

Lemma availableCountries_entries_witness :
  In (js "BE", Belgium) availableCountries
  /\ isValid (VString (Specification.example Belgium)) = Return true.
Proof.
  assert (H : In (js "BE", Belgium) availableCountries)
    by (do 6 right; left; reflexivity).
  split; [exact H|].
  apply (proj2 availableCountries_entries (js "BE") Belgium H).
Defined.

(** ** The compiler against the table of classes *)

(** X3: the matcher compiled from a well-formed descriptor accepts
    exactly the strings that are one segment per block, in the order of
    the blocks, each of the length of its block and of characters that
    the class of its block allows; what it accepts holds letters and
    digits only. *)
Theorem parseStructure_matcher_accepts_what_fits (d : jsstring) (re : RegExp) :
  wf_structure d = true ->
  parseStructure d = Return re ->
  forall s,
    RegExp_test re s = fits (blocks d) s
    /\ (RegExp_test re s = true -> Forall (fun c => is_alnum c = true) s).
Proof.
  intros Hwf Hre s.
  rewrite parseStructure_wf in Hre by (eauto using parseStructure_nonempty).
  injection Hre as <-.
  rewrite RegExp_test_fits by assumption.
  split; [reflexivity | apply fits_alnum].
Qed.

Lemma parseStructure_matcher_accepts_what_fits_witness :
  wf_structure (js "U04F10") = true
  /\ parseStructure (js "U04F10")
     = Return [{| format := Some (js "A-Z"); repeats := Num 4 |};
               {| format := Some (js "0-9"); repeats := Num 10 |}]
  /\ RegExp_test [{| format := Some (js "A-Z"); repeats := Num 4 |};
                  {| format := Some (js "0-9"); repeats := Num 10 |}]
       (js "ingb0002445588") = false.
Proof.
  split; [reflexivity|]; split; [reflexivity|].
  destruct (parseStructure_matcher_accepts_what_fits (js "U04F10")
              [{| format := Some (js "A-Z"); repeats := Num 4 |};
               {| format := Some (js "0-9"); repeats := Num 10 |}]
              eq_refl eq_refl (js "ingb0002445588")) as [E _].
  rewrite E; reflexivity.
Defined.

(** ** electronicFormat *)

Lemma electronicFormat_app (a b : jsstring) :
  electronicFormat (a ++ b) = electronicFormat a ++ electronicFormat b.
Proof.
  unfold electronicFormat, toUpperCase; rewrite filter_app, map_app.
  reflexivity.
Qed.

Lemma filter_length_le {A} (f : A -> bool) (l : list A) :
  (List.length (filter f l) <= List.length l)%nat.
Proof.
  induction l as [|x l IH]; [simpl; lia|].
  simpl; destruct (f x); simpl; lia.
Qed.

(** X4: [electronicFormat] distributes over concatenation, never
    lengthens its argument, and leaves a string as it is exactly when
    the string holds digits and upper-case letters only. *)
Theorem electronicFormat_concatenation_and_fixed_points (a b : jsstring) :
  electronicFormat (a ++ b) = electronicFormat a ++ electronicFormat b
  /\ (List.length (electronicFormat a) <= List.length a)%nat
  /\ (electronicFormat a = a <-> normalized a).
Proof.
  split; [apply electronicFormat_app|]; split.
  - rewrite electronicFormat_filter; unfold toUpperCase.
    rewrite length_map; apply filter_length_le.
  - split; [|apply electronicFormat_fixes_normalized].
    intros <-; apply electronicFormat_normalized.
Qed.

(** ** printFormat with any separator *)

(** A template that expands to the match followed by [inserted], whatever
    the match: the groups joined by [inserted]. *)
Lemma replaceAll_inserts (template inserted : jsstring) :
  (forall matched before after,
      GetSubstitution matched before after [matched] template
      = matched ++ inserted) ->
  forall s before,
    Forall (fun c => dot c = true) s ->
    replaceAll_EVERY_FOUR_CHARS template before s
    = join inserted (groups_of_four s).
Proof.
  intros Ht s; pattern s; apply by_length; clear s.
  induction n as [|n IH]; intros s Hn before Hdot.
  - destruct s; [reflexivity | simpl in Hn; lia].
  - destruct s as [|a [|b [|c [|d [|e r]]]]]; try reflexivity.
    rewrite replaceAll_step, groups_of_four_step.
    assert (Hd : dot a && dot b && dot c && dot d = true
                 /\ Forall (fun c => dot c = true) (e :: r)).
    { inversion Hdot as [|? ? Ha H1]; subst.
      inversion H1 as [|? ? Hb H2]; subst.
      inversion H2 as [|? ? Hc H3]; subst.
      inversion H3 as [|? ? Hd H4]; subst.
      rewrite Ha, Hb, Hc, Hd; auto. }
    destruct Hd as [-> Hr]; rewrite Ht.
    rewrite IH by (simpl in *; try lia; assumption).
    pose proof (groups_of_four_nonempty e r) as Hne.
    destruct (groups_of_four (e :: r)) eqn:E; [contradiction|].
    cbn [join]; rewrite <- app_assoc; reflexivity.
Qed.

Lemma electronicFormat_join (separator : jsstring) parts :
  Forall (fun c => is_alnum c = false) separator ->
  electronicFormat (join separator parts) = electronicFormat (List.concat parts).
Proof.
  intros H; rewrite !electronicFormat_filter.
  rewrite (filter_join is_alnum) by assumption; reflexivity.
Qed.

Lemma electronicFormat_printFormat (x separator : jsstring) :
  Forall (fun c => c <> 36) separator ->
  Forall (fun c => is_alnum c = false) separator ->
  electronicFormat (printFormat x (Some separator)) = electronicFormat x.
Proof.
  intros Hd Ha; rewrite (printFormat_groups _ Hd).
  rewrite electronicFormat_join by assumption.
  rewrite concat_groups_of_four.
  apply electronicFormat_fixes_normalized, electronicFormat_normalized.
Qed.

(** X5: for every separator that holds neither [$] nor a letter or
    digit, [printFormat] is the electronic format in groups of four
    joined by the separator, [electronicFormat] takes the result back to
    the electronic format of the argument, and formatting the result
    again changes nothing; so it is with the default separator. *)
Theorem printFormat_separator_and_idempotence (x separator : jsstring) :
  Forall (fun c => c <> 36) separator ->
  Forall (fun c => is_alnum c = false) separator ->
  printFormat x (Some separator)
  = join separator (groups_of_four (electronicFormat x))
  /\ electronicFormat (printFormat x (Some separator)) = electronicFormat x
  /\ printFormat (printFormat x (Some separator)) (Some separator)
     = printFormat x (Some separator)
  /\ printFormat (printFormat x None) None = printFormat x None.
Proof.
  intros Hd Ha.
  assert (I : forall sep,
             Forall (fun c => c <> 36) sep ->
             Forall (fun c => is_alnum c = false) sep ->
             printFormat (printFormat x (Some sep)) (Some sep)
             = printFormat x (Some sep)).
  { intros sep H1 H2; unfold printFormat at 1 3.
    rewrite electronicFormat_printFormat by assumption; reflexivity. }
  split; [apply printFormat_groups, Hd|].
  split; [apply electronicFormat_printFormat; assumption|].
  split; [apply I; assumption|].
  apply (I (js " ")); repeat constructor; discriminate.
Qed.

Lemma printFormat_separator_and_idempotence_witness :
  Forall (fun c => c <> 36) (js "-")
  /\ Forall (fun c => is_alnum c = false) (js "-")
  /\ printFormat (js "be68 5390 0754 7034") (Some (js "-"))
     = js "BE68-5390-0754-7034".
Proof.
  assert (D : Forall (fun c => c <> 36) (js "-"))
    by (repeat constructor; discriminate).
  assert (A : Forall (fun c => is_alnum c = false) (js "-"))
    by (repeat constructor).
  split; [exact D|]; split; [exact A|].
  rewrite (proj1 (printFormat_separator_and_idempotence
                    (js "be68 5390 0754 7034") (js "-") D A)).
  reflexivity.
Defined.

(** X6: the separator is read as part of a replacement template, in
    which [$$] stands for one [$]: with the separator ["$$"], as with
    ["$"], [printFormat] puts a single [$] between the groups. *)
Theorem printFormat_dollar_separator (x : jsstring) :
  printFormat x (Some (js "$$"))
  = join (js "$") (groups_of_four (electronicFormat x))
  /\ printFormat x (Some (js "$"))
     = join (js "$") (groups_of_four (electronicFormat x)).
Proof.
  unfold printFormat, default_separator; split;
    apply replaceAll_inserts;
    try (apply normalized_dot, electronicFormat_normalized);
    intros matched before after; cbn; rewrite ?app_nil_r; reflexivity.
Qed.

(** ** Generating, validating and converting *)

(** What [Specification.fromBBAN] does on any string: either the BBAN is
    accepted, and the IBAN returned has check digits from 02 to 98 and
    is valid, or it is not, and "Invalid BBAN" is thrown. *)
Lemma Specification_fromBBAN_cases (spec : Specification.t) (bban : jsstring) :
  wf_specification spec = true ->
  (Specification.isValidBBAN spec bban = Return true
   /\ exists k,
       2 <= k <= 98
       /\ Specification.fromBBAN spec bban
          = Return (Specification.countryCode spec ++ two_digits k ++ bban)
       /\ Specification.isValid spec
            (Specification.countryCode spec ++ two_digits k ++ bban)
          = Return true)
  \/ (Specification.isValidBBAN spec bban = Return false
      /\ Specification.fromBBAN spec bban = Throw (Error (js "Invalid BBAN"))).
Proof.
  intros Hspec.
  destruct (wf_specification_facts _ Hspec) as (Hcc & Hwf & Hne).
  destruct (Specification_isValidBBAN_returns spec Hwf Hne bban) as [[|] Hv].
  - left; split; [exact Hv|].
    destruct (Specification_fromBBAN_check_digits spec Hspec bban Hv)
      as (r & Hr & _ & E1 & E2).
    exists (98 - r); split; [lia|]; split; [exact E1|].
    destruct (isValidBBAN_true spec Hwf Hne bban Hv) as [Hlen Hfit].
    destruct (wf_countryCode_shape _ Hcc) as (a & b & Ecc & _ & _).
    apply (isValid_true spec Hwf Hne); rewrite Ecc in *.
    split; [|split; [|split; [|exact E2]]].
    + unfold len in *; unfold two_digits; cbn [List.length app]; lia.
    + change 2 with (Z.of_nat 2); change 0 with (Z.of_nat 0).
      rewrite slice_nat by lia; reflexivity.
    + change 4 with (Z.of_nat 4); rewrite slice_suffix; exact Hfit.
  - right; split; [exact Hv|].
    unfold Specification.fromBBAN; rewrite Hv; reflexivity.
Qed.

Lemma fromBBAN_own countryCode spec bban :
  COUNTRIES_get countryCode = Some (Own spec) ->
  fromBBAN countryCode bban
  = Specification.fromBBAN spec (electronicFormat bban).
Proof. intros H; unfold fromBBAN, getCountry; rewrite H; reflexivity. Qed.

Lemma isValidBBAN_own countryCode spec bban :
  COUNTRIES_get countryCode = Some (Own spec) ->
  isValidBBAN countryCode (VString bban)
  = Specification.isValidBBAN spec (electronicFormat bban).
Proof. intros H; unfold isValidBBAN, getCountry; rewrite H; reflexivity. Qed.

Lemma isValid_own x spec :
  COUNTRIES_get (slice 0 (Some 2) (electronicFormat x)) = Some (Own spec) ->
  isValid (VString x) = Specification.isValid spec (electronicFormat x).
Proof.
  intros H; unfold isValid, getCountry; cbn [isString negb string_of].
  rewrite H; cbn [bind call].
  destruct (COUNTRIES_get_own _ _ H) as [Hwf Hne].
  destruct (Specification_isValid_returns spec Hwf Hne _
              (electronicFormat_normalized x)) as [b ->].
  reflexivity.
Qed.

Lemma isValid_inv x :
  isValid (VString x) = Return true ->
  exists spec,
    COUNTRIES_get (slice 0 (Some 2) (electronicFormat x)) = Some (Own spec)
    /\ Specification.isValid spec (electronicFormat x) = Return true.
Proof.
  intros H.
  destruct (COUNTRIES_get (slice 0 (Some 2) (electronicFormat x)))
    as [[spec|]|] eqn:E.
  - exists spec; split; [reflexivity|].
    rewrite <- (isValid_own _ _ E); exact H.
  - unfold isValid, getCountry in H; cbn [isString negb string_of] in H.
    rewrite E in H; discriminate.
  - unfold isValid, getCountry in H; cbn [isString negb string_of] in H.
    rewrite E in H; discriminate.
Qed.

Lemma toBBAN_own x separator spec :
  COUNTRIES_get (slice 0 (Some 2) (electronicFormat x)) = Some (Own spec) ->
  toBBAN x separator
  = Specification.toBBAN spec (electronicFormat x)
      (default_separator separator).
Proof. intros H; unfold toBBAN, getCountry; rewrite H; reflexivity. Qed.

Lemma generated_normalized (cc s : jsstring) (k : Z) :
  wf_countryCode cc = true -> 0 <= k < 100 -> normalized s ->
  normalized (cc ++ two_digits k ++ s).
Proof.
  intros Hcc Hk Hs.
  destruct (wf_countryCode_shape _ Hcc) as (a & b & -> & Ha & Hb).
  destruct (two_digits_facts k Hk) as (Hx & Hy & _).
  assert (U : forall c, is_upper c = true -> is_normal c = true)
    by (intros c Hc; unfold is_normal; rewrite Hc; apply orb_true_r).
  assert (D : forall c, is_digit c = true -> is_normal c = true)
    by (intros c Hc; unfold is_normal; rewrite Hc; reflexivity).
  unfold normalized, two_digits; rewrite !Forall_app; split; [|split].
  - constructor; [auto|]; constructor; [auto | constructor].
  - constructor; [auto|]; constructor; [auto | constructor].
  - exact Hs.
Qed.

(** What [fromBBAN] returns, when it returns. *)
Lemma fromBBAN_inv countryCode bban iban :
  fromBBAN countryCode bban = Return iban ->
  exists spec k,
    COUNTRIES_get countryCode = Some (Own spec)
    /\ 2 <= k <= 98
    /\ iban = countryCode ++ two_digits k ++ electronicFormat bban
    /\ normalized iban
    /\ Specification.isValidBBAN spec (electronicFormat bban) = Return true
    /\ Specification.isValid spec iban = Return true.
Proof.
  intros H.
  destruct (COUNTRIES_get countryCode) as [[spec|]|] eqn:E;
    try (unfold fromBBAN, getCountry in H; rewrite E in H; discriminate).
  rewrite (fromBBAN_own _ _ _ E) in H.
  pose proof (COUNTRIES_get_wf _ _ E) as Hspec.
  pose proof (COUNTRIES_get_key _ _ E) as Hkey.
  destruct (wf_specification_facts _ Hspec) as (Hcc & _ & _).
  destruct (Specification_fromBBAN_cases spec (electronicFormat bban) Hspec)
    as [(Hv & k & Hk & E1 & E2) | (_ & E1)];
    rewrite E1 in H; [|discriminate].
  pose proof (generated_normalized _ _ k Hcc ltac:(lia)
                (electronicFormat_normalized bban)) as Hn.
  rewrite Hkey in *.
  assert (Ei : iban = countryCode ++ two_digits k ++ electronicFormat bban)
    by congruence.
  rewrite Ei; exists spec, k.
  split; [reflexivity|]; split; [exact Hk|]; split; [reflexivity|].
  split; [exact Hn|]; split; [exact Hv | exact E2].
Qed.

(** X7: [fromBBAN] returns an IBAN exactly when [isValidBBAN] returns
    [true] on the same arguments, throws "Invalid BBAN" exactly when
    [isValidBBAN] returns [false], and throws what [isValidBBAN] throws
    when the country code is unknown. *)
Theorem fromBBAN_returns_iff_isValidBBAN (countryCode bban : jsstring) :
  ((exists iban, fromBBAN countryCode bban = Return iban)
   <-> isValidBBAN countryCode (VString bban) = Return true)
  /\ (fromBBAN countryCode bban = Throw (Error (js "Invalid BBAN"))
      <-> isValidBBAN countryCode (VString bban) = Return false)
  /\ (forall e,
         isValidBBAN countryCode (VString bban) = Throw e ->
         fromBBAN countryCode bban = Throw e).
Proof.
  destruct (COUNTRIES_get countryCode) as [[spec|]|] eqn:E.
  - rewrite (fromBBAN_own _ _ _ E), (isValidBBAN_own _ _ _ E).
    destruct (Specification_fromBBAN_cases spec (electronicFormat bban)
                (COUNTRIES_get_wf _ _ E))
      as [(Hv & k & _ & E1 & _) | (Hv & E1)]; rewrite Hv, E1.
    + split; [split; eauto|]; split; [split|]; discriminate.
    + split; [split; [intros [? H]|]; discriminate|].
      split; [tauto | discriminate].
  - unfold fromBBAN, isValidBBAN, getCountry; cbn [isString negb].
    rewrite E; cbn [bind call].
    split; [split; [intros [? H]|]; discriminate|].
    split; [split; discriminate | intros e H; injection H as <-; reflexivity].
  - unfold fromBBAN, isValidBBAN, getCountry; cbn [isString negb].
    rewrite E; cbn [bind].
    split; [split; [intros [? H]|]; discriminate|].
    split; [|intros e H; injection H as <-; reflexivity].
    split; [intros H; injection H as H; exfalso|discriminate].
    vm_compute in H; discriminate.
Qed.

Lemma fromBBAN_returns_iff_isValidBBAN_witness :
  isValidBBAN (js "BE") (VString (js "1234")) = Return false
  /\ fromBBAN (js "BE") (js "1234") = Throw (Error (js "Invalid BBAN")).
Proof.
  split; [reflexivity|].
  apply (proj2 (proj1 (proj2
           (fromBBAN_returns_iff_isValidBBAN (js "BE") (js "1234"))))).
  reflexivity.
Defined.

Lemma firstn_length_app {A} (a b : list A) :
  firstn (List.length a) (a ++ b) = a.
Proof. induction a as [|x a IH]; [reflexivity | simpl; rewrite IH; reflexivity]. Qed.

Lemma skipn_length_app {A} (a b : list A) :
  skipn (List.length a) (a ++ b) = b.
Proof. induction a as [|x a IH]; [reflexivity | simpl; exact IH]. Qed.

Lemma wf_countryCode_length (cc : jsstring) :
  wf_countryCode cc = true -> List.length cc = 2%nat.
Proof.
  intros H; destruct (wf_countryCode_shape _ H) as (a & b & -> & _).
  reflexivity.
Qed.

(** The parts of [countryCode + checkDigits + bban]. *)
Lemma slices_of_iban (cc bban : jsstring) (k : Z) :
  wf_countryCode cc = true ->
  slice 0 (Some 2) (cc ++ two_digits k ++ bban) = cc
  /\ slice 2 (Some 4) (cc ++ two_digits k ++ bban) = two_digits k
  /\ slice 4 None (cc ++ two_digits k ++ bban) = bban.
Proof.
  intros H; destruct (wf_countryCode_shape _ H) as (a & b & -> & _).
  change 0 with (Z.of_nat 0); change 2 with (Z.of_nat 2).
  change 4 with (Z.of_nat 4).
  rewrite !slice_nat, slice_suffix by lia.
  repeat split; reflexivity.
Qed.

Lemma join_nil (parts : list jsstring) : join [] parts = List.concat parts.
Proof.
  induction parts as [|p [|q rest] IH]; [reflexivity | |].
  - simpl; rewrite app_nil_r; reflexivity.
  - change (join [] (p :: q :: rest)) with (p ++ [] ++ join [] (q :: rest)).
    rewrite IH; reflexivity.
Qed.

Section WellFormedConversion.

Variable spec : Specification.t.
Hypothesis descriptor_wf : wf_structure (Specification.structure spec) = true.
Hypothesis descriptor_block : Specification.structure spec <> [].

(** [Specification.toBBAN] on a part that fits the blocks, and on one
    that does not. *)
Lemma Specification_toBBAN_fits iban separator :
  fits (blocks (Specification.structure spec)) (slice 4 None iban) = true ->
  Specification.toBBAN spec iban separator
  = Return (join separator
              (cut (block_lengths (Specification.structure spec))
                 (slice 4 None iban))).
Proof.
  intros F; unfold Specification.toBBAN.
  rewrite regex_wf by assumption; cbn [bind]; unfold RegExp_exec.
  rewrite match_groups_fits, F by (apply wf_blocks_codes; assumption).
  reflexivity.
Qed.

Lemma Specification_toBBAN_misfit iban separator :
  fits (blocks (Specification.structure spec)) (slice 4 None iban) = false ->
  Specification.toBBAN spec iban separator
  = Throw (Error (js "Invalid IBAN")).
Proof.
  intros F; unfold Specification.toBBAN.
  rewrite regex_wf by assumption; cbn [bind]; unfold RegExp_exec.
  rewrite match_groups_fits, F by (apply wf_blocks_codes; assumption).
  reflexivity.
Qed.

(** With the lengths of the blocks adding up to the declared length less
    4, [isValidBBAN] is the test of fitting the blocks. *)
Lemma Specification_isValidBBAN_fits bban :
  Z.of_nat (list_sum (block_lengths (Specification.structure spec)))
  = Specification.length spec - 4 ->
  Specification.isValidBBAN spec bban
  = Return (fits (blocks (Specification.structure spec)) bban).
Proof.
  intros Hsum; unfold Specification.isValidBBAN.
  rewrite regex_wf by assumption; cbn [bind].
  rewrite RegExp_test_fits by assumption.
  destruct (Z.eqb_spec (Specification.length spec - 4) (len bban)) as [E|E];
    [reflexivity|].
  cbn [and_then].
  destruct (fits (blocks (Specification.structure spec)) bban) eqn:F;
    [|reflexivity].
  exfalso; apply E; rewrite <- Hsum; unfold len, block_lengths.
  rewrite (fits_length _ _ F); reflexivity.
Qed.

End WellFormedConversion.

Lemma slice_suffix_normalized (k : nat) (s : jsstring) :
  normalized s -> normalized (slice (Z.of_nat k) None s).
Proof. intros H; rewrite slice_suffix; apply Forall_skipn, H. Qed.

(** [isValidBBAN] on the parts of the electronic format [e] of an IBAN
    whose country is in the table. *)
Lemma isValidBBAN_of_parts (e : jsstring) spec :
  normalized e ->
  COUNTRIES_get (slice 0 (Some 2) e) = Some (Own spec) ->
  isValidBBAN (slice 0 (Some 2) e) (VString (slice 4 None e))
  = Return (fits (blocks (Specification.structure spec)) (slice 4 None e)).
Proof.
  intros Hn E; rewrite (isValidBBAN_own _ _ _ E).
  change 4 with (Z.of_nat 4).
  rewrite electronicFormat_fixes_normalized
    by (apply slice_suffix_normalized, Hn).
  destruct (COUNTRIES_get_own _ _ E) as [Hwf Hne].
  apply Specification_isValidBBAN_fits; auto.
  apply COUNTRIES_get_In, registered_facts in E; tauto.
Qed.

(** X8: the IBAN that [fromBBAN] returns is the country code, two check
    digits of a number from 02 to 98 and the electronic format of the
    BBAN; it holds digits and upper-case letters only, and [isValid]
    holds of it. *)
Theorem fromBBAN_generates_a_valid_IBAN (countryCode bban iban : jsstring) :
  fromBBAN countryCode bban = Return iban ->
  (exists k,
      2 <= k <= 98
      /\ iban = countryCode ++ two_digits k ++ electronicFormat bban)
  /\ normalized iban
  /\ isValid (VString iban) = Return true.
Proof.
  intros H.
  destruct (fromBBAN_inv _ _ _ H) as (spec & k & E & Hk & -> & Hn & _ & Hv).
  split; [exists k; auto|]; split; [exact Hn|].
  pose proof (COUNTRIES_get_wf _ _ E) as Hspec.
  destruct (wf_specification_facts _ Hspec) as (Hcc & _ & _).
  rewrite (COUNTRIES_get_key _ _ E) in Hcc.
  destruct (slices_of_iban countryCode (electronicFormat bban) k Hcc)
    as (S0 & _ & _).
  rewrite (isValid_own _ spec);
    rewrite electronicFormat_fixes_normalized by exact Hn;
    [exact Hv | rewrite S0; exact E].
Qed.

Lemma fromBBAN_generates_a_valid_IBAN_witness :
  fromBBAN (js "NL") (js "ingb 0002 4455 88") = Return (js "NL86INGB0002445588")
  /\ isValid (VString (js "NL86INGB0002445588")) = Return true.
Proof.
  assert (H : fromBBAN (js "NL") (js "ingb 0002 4455 88")
              = Return (js "NL86INGB0002445588")) by (vm_compute; reflexivity).
  split; [exact H|].
  exact (proj2 (proj2 (fromBBAN_generates_a_valid_IBAN _ _ _ H))).
Defined.

(** X9: [toBBAN] undoes [fromBBAN]: on the IBAN that [fromBBAN] returns,
    [toBBAN] with the empty separator returns the electronic format of
    the BBAN, from which [fromBBAN] returns the same IBAN again; with a
    separator free of letters and digits it returns a string whose
    electronic format is that of the BBAN. *)
Theorem toBBAN_undoes_fromBBAN (countryCode bban iban : jsstring) :
  fromBBAN countryCode bban = Return iban ->
  toBBAN iban (Some []) = Return (electronicFormat bban)
  /\ fromBBAN countryCode (electronicFormat bban) = Return iban
  /\ (forall separator,
         Forall (fun c => is_alnum c = false) (default_separator separator) ->
         exists formatted,
           toBBAN iban separator = Return formatted
           /\ electronicFormat formatted = electronicFormat bban).
Proof.
  intros H.
  destruct (fromBBAN_inv _ _ _ H) as (spec & k & E & Hk & Ei & Hn & Hb & _).
  pose proof (COUNTRIES_get_wf _ _ E) as Hspec.
  destruct (wf_specification_facts _ Hspec) as (Hcc & Hwf & Hne).
  rewrite (COUNTRIES_get_key _ _ E) in Hcc.
  destruct (slices_of_iban countryCode (electronicFormat bban) k Hcc)
    as (S0 & _ & S4).
  rewrite <- Ei in S0, S4.
  destruct (isValidBBAN_true spec Hwf Hne _ Hb) as [_ Hfit].
  assert (T : forall separator,
             toBBAN iban separator
             = Return (join (default_separator separator)
                         (cut (block_lengths (Specification.structure spec))
                            (electronicFormat bban)))).
  { intros separator; rewrite (toBBAN_own _ _ spec);
      rewrite electronicFormat_fixes_normalized by exact Hn;
      [|rewrite S0; exact E].
    rewrite Specification_toBBAN_fits by (rewrite ?S4; assumption).
    rewrite S4; reflexivity. }
  split; [|split].
  - rewrite T; cbn [default_separator]; rewrite join_nil.
    unfold block_lengths; rewrite concat_cut by assumption; reflexivity.
  - unfold fromBBAN in *.
    rewrite electronicFormat_fixes_normalized
      by apply electronicFormat_normalized.
    exact H.
  - intros separator Hs; eexists; split; [apply T|].
    rewrite electronicFormat_join by assumption.
    unfold block_lengths; rewrite concat_cut by assumption.
    apply electronicFormat_fixes_normalized, electronicFormat_normalized.
Qed.

Lemma toBBAN_undoes_fromBBAN_witness :
  fromBBAN (js "BE") (js "539-0075470-34") = Return (js "BE68539007547034")
  /\ toBBAN (js "BE68539007547034") (Some []) = Return (js "539007547034").
Proof.
  assert (H : fromBBAN (js "BE") (js "539-0075470-34")
              = Return (js "BE68539007547034")) by (vm_compute; reflexivity).
  split; [exact H|].
  exact (proj1 (toBBAN_undoes_fromBBAN _ _ _ H)).
Defined.

(** X10: [toBBAN] looks at the country code and at the part from offset
    4 only, not at the check digits nor at the checksum: it returns
    exactly when [isValidBBAN] holds of that country code and that part,
    and throws "Invalid IBAN" exactly when [isValidBBAN] returns [false]
    on them; with a separator free of letters and digits, the electronic
    format of what it returns is that part. *)
Theorem toBBAN_returns_iff_the_BBAN_is_valid
  (x : jsstring) (separator : option jsstring) :
  ((exists formatted, toBBAN x separator = Return formatted)
   <-> isValidBBAN (slice 0 (Some 2) (electronicFormat x))
         (VString (slice 4 None (electronicFormat x))) = Return true)
  /\ (toBBAN x separator = Throw (Error (js "Invalid IBAN"))
      <-> isValidBBAN (slice 0 (Some 2) (electronicFormat x))
            (VString (slice 4 None (electronicFormat x))) = Return false)
  /\ (forall formatted,
         toBBAN x separator = Return formatted ->
         Forall (fun c => is_alnum c = false) (default_separator separator) ->
         electronicFormat formatted = slice 4 None (electronicFormat x)).
Proof.
  pose proof (electronicFormat_normalized x) as Hn.
  destruct (COUNTRIES_get (slice 0 (Some 2) (electronicFormat x)))
    as [[spec|]|] eqn:E.
  - rewrite (toBBAN_own _ _ _ E), (isValidBBAN_of_parts _ _ Hn E).
    destruct (COUNTRIES_get_own _ _ E) as [Hwf Hne].
    destruct (fits (blocks (Specification.structure spec))
                (slice 4 None (electronicFormat x))) eqn:F.
    + rewrite (Specification_toBBAN_fits spec Hwf Hne _ _ F).
      split; [split; eauto|]; split; [split; discriminate|].
      intros formatted H Hs; injection H as <-.
      rewrite electronicFormat_join by assumption.
      unfold block_lengths; rewrite concat_cut by assumption.
      apply electronicFormat_fixes_normalized.
      change 4 with (Z.of_nat 4); apply slice_suffix_normalized, Hn.
    + rewrite (Specification_toBBAN_misfit spec Hwf Hne _ _ F).
      split; [split; [intros [? H]|]; discriminate|].
      split; [tauto | discriminate].
  - unfold toBBAN, isValidBBAN, getCountry; cbn [isString negb].
    rewrite E; cbn [bind call].
    split; [split; [intros [? H]|]; discriminate|].
    split; [split; discriminate | discriminate].
  - unfold toBBAN, isValidBBAN, getCountry; cbn [isString negb].
    rewrite E; cbn [bind].
    split; [split; [intros [? H]|]; discriminate|].
    split; [|discriminate].
    split; [intros H; injection H as H; exfalso|discriminate].
    vm_compute in H; discriminate.
Qed.

Lemma toBBAN_returns_iff_the_BBAN_is_valid_witness :
  isValid (VString (js "BE00 5390 0754 7034")) = Return false
  /\ exists formatted,
       toBBAN (js "BE00 5390 0754 7034") None = Return formatted.
Proof.
  split; [vm_compute; reflexivity|].
  apply (proj1 (toBBAN_returns_iff_the_BBAN_is_valid
                  (js "BE00 5390 0754 7034") None)).
  vm_compute; reflexivity.
Defined.

Lemma electronicFormat_idempotent (x : jsstring) :
  electronicFormat (electronicFormat x) = electronicFormat x.
Proof. apply electronicFormat_fixes_normalized, electronicFormat_normalized. Qed.

(** X11: the exported operations read their string argument through
    [electronicFormat] only: each gives the same result on a string, on
    its electronic format and on its print format, and [isValid] the
    same on a String object as on the string. *)
Theorem operations_depend_on_the_electronic_format
  (x countryCode : jsstring) (separator : option jsstring) :
  isValid (VString (electronicFormat x)) = isValid (VString x)
  /\ isValid (VString (printFormat x None)) = isValid (VString x)
  /\ isValid (VStringObject x) = isValid (VString x)
  /\ toBBAN (electronicFormat x) separator = toBBAN x separator
  /\ toBBAN (printFormat x None) separator = toBBAN x separator
  /\ fromBBAN countryCode (electronicFormat x) = fromBBAN countryCode x
  /\ fromBBAN countryCode (printFormat x None) = fromBBAN countryCode x
  /\ isValidBBAN countryCode (VString (electronicFormat x))
     = isValidBBAN countryCode (VString x)
  /\ isValidBBAN countryCode (VString (printFormat x None))
     = isValidBBAN countryCode (VString x).
Proof.
  assert (P : electronicFormat (printFormat x None) = electronicFormat x).
  { apply (electronicFormat_printFormat x (js " "));
      repeat constructor; discriminate. }
  unfold isValid, toBBAN, fromBBAN, isValidBBAN.
  cbn [isString negb string_of].
  rewrite P, electronicFormat_idempotent.
  repeat split; reflexivity.
Qed.

Lemma registered_length key spec :
  In (key, spec) COUNTRIES -> 15 <= Specification.length spec <= 32.
Proof.
  intros H; pose proof COUNTRIES_examples_ok as A.
  rewrite forallb_forall in A; specialize (A _ H).
  unfold example_ok in A; cbn [snd] in A.
  rewrite !andb_true_iff, !Z.leb_le in A; tauto.
Qed.

(** X12: when [isValid] holds of a string, its electronic format has
    between 15 and 32 characters, the length declared for its country,
    which is in the table; [isValidBBAN] holds of its country code and
    its part from offset 4; and [toBBAN] returns, whatever the
    separator. *)
Theorem a_valid_IBAN_has_a_valid_BBAN (x : jsstring) :
  isValid (VString x) = Return true ->
  15 <= len (electronicFormat x) <= 32
  /\ (exists spec,
         getCountry (slice 0 (Some 2) (electronicFormat x))
         = Return (Own spec)
         /\ len (electronicFormat x) = Specification.length spec)
  /\ isValidBBAN (slice 0 (Some 2) (electronicFormat x))
       (VString (slice 4 None (electronicFormat x))) = Return true
  /\ (forall separator,
         exists formatted, toBBAN x separator = Return formatted).
Proof.
  intros H; destruct (isValid_inv _ H) as (spec & E & Hv).
  destruct (COUNTRIES_get_own _ _ E) as [Hwf Hne].
  apply (isValid_true spec Hwf Hne) in Hv.
  destruct Hv as (Hlen & _ & Hfit & _).
  pose proof (proj1 (COUNTRIES_get_In _ _) E) as Hin.
  pose proof (registered_length _ _ Hin) as Hb.
  split; [rewrite <- Hlen; exact Hb|]; split; [|split].
  - exists spec; unfold getCountry; rewrite E; auto.
  - rewrite (isValidBBAN_of_parts _ _ (electronicFormat_normalized x) E).
    rewrite Hfit; reflexivity.
  - intros separator; rewrite (toBBAN_own _ _ _ E).
    rewrite (Specification_toBBAN_fits spec Hwf Hne _ _ Hfit); eauto.
Qed.

Lemma a_valid_IBAN_has_a_valid_BBAN_witness :
  isValid (VString (js "NL86 INGB 0002 4455 88")) = Return true
  /\ isValidBBAN (js "NL") (VString (js "INGB0002445588")) = Return true.
Proof.
  assert (H : isValid (VString (js "NL86 INGB 0002 4455 88")) = Return true)
    by (vm_compute; reflexivity).
  split; [exact H|].
  exact (proj1 (proj2 (proj2 (a_valid_IBAN_has_a_valid_BBAN _ H)))).
Defined.

(** ** What the checksum detects *)

(** 10 is a unit modulo 97: 10 * 68 = 7 * 97 + 1. *)
Lemma pow10_unit (n : nat) :
  forall x, (x * 10 ^ Z.of_nat n) mod 97 = 0 -> x mod 97 = 0.
Proof.
  induction n as [|n IH]; intros x H.
  - change (10 ^ Z.of_nat 0) with 1 in H; rewrite Z.mul_1_r in H; exact H.
  - rewrite Nat2Z.inj_succ, Z.pow_succ_r in H by lia.
    replace (x * (10 * 10 ^ Z.of_nat n)) with (x * 10 * 10 ^ Z.of_nat n) in H
      by ring.
    apply IH in H; apply Z.mod_divide in H; [|lia].
    destruct H as [k Hk]; apply Z.mod_divide; [lia|].
    exists (68 * k - 7 * x); lia.
Qed.

Lemma same_remainder (a b : Z) :
  a mod 97 = b mod 97 -> (a - b) mod 97 = 0.
Proof. intros H; rewrite Zminus_mod, H, Z.sub_diag; reflexivity. Qed.

Lemma small_multiple (x : Z) : -96 <= x <= 96 -> x mod 97 = 0 -> x = 0.
Proof.
  intros Hx H; pose proof (Z.div_mod x 97 ltac:(lia)); lia.
Qed.

Lemma decimal_value_at (A B : jsstring) (d : Z) :
  decimal_value (A ++ d :: B)
  = decimal_value A * 10 ^ len (d :: B)
    + (d - 48) * 10 ^ len B + decimal_value B.
Proof. rewrite decimal_value_app, decimal_value_cons; ring. Qed.

Lemma flat_map_numeric_cons_digit (d : Z) (t : jsstring) :
  is_digit d = true -> flat_map numeric (d :: t) = d :: flat_map numeric t.
Proof. intros H; cbn [flat_map]; rewrite (numeric_digit d H); reflexivity. Qed.

Lemma normalized_cons_digit (p q : jsstring) (d : Z) :
  normalized p -> normalized q -> is_digit d = true ->
  normalized (p ++ d :: q).
Proof.
  intros Hp Hq Hd; apply Forall_app; split; [exact Hp|].
  constructor; [unfold is_normal; rewrite Hd; reflexivity | exact Hq].
Qed.

(** Where a digit of an IBAN stands in the prepared string: between two
    strings of digits that do not depend on it. *)
Lemma iso13616Prepare_digit_at (p q : jsstring) :
  normalized p -> normalized q ->
  exists A B,
    digits A /\ digits B
    /\ forall d, is_digit d = true ->
                 iso13616Prepare (p ++ d :: q) = A ++ d :: B.
Proof.
  intros Hp Hq.
  destruct (Nat.le_gt_cases 4 (List.length p)) as [L|L].
  - exists (flat_map numeric (skipn 4 p)),
      (flat_map numeric q ++ flat_map numeric (firstn 4 p)).
    split; [apply flat_map_numeric_digits, Forall_skipn, Hp|].
    split; [apply digits_app; apply flat_map_numeric_digits;
            [exact Hq | apply Forall_firstn, Hp]|].
    intros d Hd; rewrite iso13616Prepare_flat_map.
    rewrite toUpperCase_normalized by (apply normalized_cons_digit; auto).
    rewrite skipn_app, firstn_app.
    replace (4 - List.length p)%nat with 0%nat by lia.
    cbn [skipn firstn]; rewrite app_nil_r, !flat_map_app.
    rewrite flat_map_numeric_cons_digit by exact Hd.
    rewrite <- !app_assoc; reflexivity.
  - remember (3 - List.length p)%nat as m eqn:Em.
    exists (flat_map numeric (skipn m q) ++ flat_map numeric p),
      (flat_map numeric (firstn m q)).
    split; [apply digits_app; apply flat_map_numeric_digits;
            [apply Forall_skipn, Hq | exact Hp]|].
    split; [apply flat_map_numeric_digits, Forall_firstn, Hq|].
    intros d Hd; rewrite iso13616Prepare_flat_map.
    rewrite toUpperCase_normalized by (apply normalized_cons_digit; auto).
    rewrite skipn_app, firstn_app.
    replace (4 - List.length p)%nat with (S m) by lia.
    rewrite (skipn_all2 p) by lia; rewrite (firstn_all2 p) by lia.
    cbn [skipn firstn app]; rewrite !flat_map_app.
    rewrite flat_map_numeric_cons_digit by exact Hd.
    rewrite <- !app_assoc; reflexivity.
Qed.

(** Two digits that follow each other from offset 4 on stand next to
    each other in the prepared string. *)
Lemma iso13616Prepare_digits_at (p q : jsstring) :
  normalized p -> normalized q -> (4 <= List.length p)%nat ->
  exists A B,
    digits A /\ digits B
    /\ forall a b, is_digit a = true -> is_digit b = true ->
                   iso13616Prepare (p ++ a :: b :: q) = A ++ a :: b :: B.
Proof.
  intros Hp Hq L.
  exists (flat_map numeric (skipn 4 p)),
    (flat_map numeric q ++ flat_map numeric (firstn 4 p)).
  split; [apply flat_map_numeric_digits, Forall_skipn, Hp|].
  split; [apply digits_app; apply flat_map_numeric_digits;
          [exact Hq | apply Forall_firstn, Hp]|].
  intros a b Ha Hb; rewrite iso13616Prepare_flat_map.
  rewrite toUpperCase_normalized
    by (apply normalized_cons_digit; auto;
        apply (normalized_cons_digit [] q b); auto; constructor).
  rewrite skipn_app, firstn_app.
  replace (4 - List.length p)%nat with 0%nat by lia.
  cbn [skipn firstn]; rewrite app_nil_r, !flat_map_app.
  rewrite !flat_map_numeric_cons_digit by assumption.
  rewrite <- !app_assoc; reflexivity.
Qed.

Lemma reduction_at (A B : jsstring) (d : Z) :
  digits A -> digits B -> is_digit d = true ->
  iso7064Mod9710 (A ++ d :: B)
  = Return (Num (decimal_value (A ++ d :: B) mod 97)).
Proof.
  intros HA HB Hd; apply iso7064Mod9710_digits.
  - apply digits_app; [exact HA | constructor; assumption].
  - intros E; apply app_eq_nil in E; destruct E; discriminate.
Qed.

Section Substitution.

Variable spec : Specification.t.
Hypothesis descriptor_wf : wf_structure (Specification.structure spec) = true.
Hypothesis descriptor_block : Specification.structure spec <> [].

(** One digit replaced by another. *)
Lemma Specification_isValid_one_digit (p q : jsstring) (d d' : Z) :
  normalized p -> normalized q ->
  is_digit d = true -> is_digit d' = true -> d <> d' ->
  Specification.isValid spec (p ++ d :: q) = Return true ->
  Specification.isValid spec (p ++ d' :: q) = Return false.
Proof.
  intros Hp Hq Hd Hd' Hne Hv.
  destruct (Specification_isValid_returns spec descriptor_wf descriptor_block
              (p ++ d' :: q) (normalized_cons_digit _ _ _ Hp Hq Hd'))
    as [[|] Hv']; [exfalso | exact Hv'].
  apply (isValid_true spec descriptor_wf descriptor_block) in Hv, Hv'.
  destruct Hv as (_ & _ & _ & M), Hv' as (_ & _ & _ & M').
  destruct (iso13616Prepare_digit_at p q Hp Hq) as (A & B & HA & HB & E).
  rewrite (E d Hd), reduction_at in M by assumption.
  rewrite (E d' Hd'), reduction_at in M' by assumption.
  injection M as M; injection M' as M'.
  rewrite !decimal_value_at in M, M'.
  assert (Z : ((d - d') * 10 ^ len B) mod 97 = 0).
  { replace ((d - d') * 10 ^ len B)
      with ((decimal_value A * 10 ^ len (d :: B)
             + (d - 48) * 10 ^ len B + decimal_value B)
            - (decimal_value A * 10 ^ len (d' :: B)
               + (d' - 48) * 10 ^ len B + decimal_value B))
      by (unfold len; cbn [List.length]; ring).
    apply same_remainder; congruence. }
  apply pow10_unit, small_multiple in Z.
  - lia.
  - apply in_range_bounds in Hd, Hd'; lia.
Qed.

(** Two different digits exchanged, from offset 4 on. *)
Lemma Specification_isValid_exchange (p q : jsstring) (a b : Z) :
  normalized p -> normalized q -> (4 <= List.length p)%nat ->
  is_digit a = true -> is_digit b = true -> a <> b ->
  Specification.isValid spec (p ++ a :: b :: q) = Return true ->
  Specification.isValid spec (p ++ b :: a :: q) = Return false.
Proof.
  intros Hp Hq L Ha Hb Hne Hv.
  assert (Hq' : forall c, is_digit c = true -> normalized (c :: q))
    by (intros c Hc; apply (normalized_cons_digit [] q c); auto; constructor).
  destruct (Specification_isValid_returns spec descriptor_wf descriptor_block
              (p ++ b :: a :: q)
              (normalized_cons_digit _ _ _ Hp (Hq' a Ha) Hb))
    as [[|] Hv']; [exfalso | exact Hv'].
  apply (isValid_true spec descriptor_wf descriptor_block) in Hv, Hv'.
  destruct Hv as (_ & _ & _ & M), Hv' as (_ & _ & _ & M').
  destruct (iso13616Prepare_digits_at p q Hp Hq L) as (A & B & HA & HB & E).
  assert (HB' : forall c, is_digit c = true -> digits (c :: B))
    by (intros c Hc; constructor; assumption).
  rewrite (E a b Ha Hb), reduction_at in M by auto.
  rewrite (E b a Hb Ha), reduction_at in M' by auto.
  injection M as M; injection M' as M'.
  rewrite !decimal_value_at, !decimal_value_cons in M, M'.
  assert (Z : (9 * (a - b) * 10 ^ len B) mod 97 = 0).
  { replace (9 * (a - b) * 10 ^ len B)
      with ((decimal_value A * 10 ^ len (a :: b :: B)
             + (a - 48) * 10 ^ len (b :: B)
             + ((b - 48) * 10 ^ len B + decimal_value B))
            - (decimal_value A * 10 ^ len (b :: a :: B)
               + (b - 48) * 10 ^ len (a :: B)
               + ((a - 48) * 10 ^ len B + decimal_value B))).
    - apply same_remainder; congruence.
    - unfold len; cbn [List.length].
      rewrite !Nat2Z.inj_succ, !Z.pow_succ_r by lia; ring. }
  apply pow10_unit, small_multiple in Z.
  - lia.
  - apply in_range_bounds in Ha, Hb; lia.
Qed.

End Substitution.

Lemma electronicFormat_digit (d : Z) (q : jsstring) :
  is_digit d = true ->
  electronicFormat (d :: q) = d :: electronicFormat q.
Proof.
  intros Hd.
  change (d :: q) with ([d] ++ q); rewrite electronicFormat_app.
  rewrite (electronicFormat_fixes_normalized [d]); [reflexivity|].
  constructor; [unfold is_normal; rewrite Hd; reflexivity | constructor].
Qed.

Lemma digit_not_upper (d : Z) :
  is_digit d = true -> is_upper d = true -> False.
Proof.
  unfold is_digit, is_upper; intros H1 H2.
  apply in_range_bounds in H1, H2; lia.
Qed.

(** A digit of a string whose first two code units are upper-case
    letters is not among them. *)
Lemma country_code_before_digit (p q : jsstring) (d : Z) :
  is_digit d = true ->
  wf_countryCode (slice 0 (Some 2) (p ++ d :: q)) = true ->
  forall t, slice 0 (Some 2) (p ++ t) = slice 0 (Some 2) (p ++ d :: q).
Proof.
  intros Hd H t; change 2 with (Z.of_nat 2) in *.
  rewrite slice_prefix in H; rewrite !slice_prefix.
  destruct p as [|a [|b r]]; [exfalso|exfalso|reflexivity].
  - destruct q as [|c q]; cbn in H; try discriminate.
    apply andb_true_iff in H; destruct H as [H _].
    exact (digit_not_upper d Hd H).
  - cbn in H; apply andb_true_iff in H; destruct H as [_ H].
    exact (digit_not_upper d Hd H).
Qed.

(** X13: the checksum detects every change of one digit.  If a string
    is a valid IBAN, in whatever formatting, then replacing one of its
    digits by a different digit gives a string that [isValid] rejects:
    the two prepared numbers differ by a non-zero multiple of a power of
    ten below ten times that power, and 10 is a unit modulo 97.  The
    same holds for [Specification.isValid] of every specification whose
    descriptor is well formed, on strings in electronic format. *)
Theorem isValid_detects_a_changed_digit (p q : jsstring) (d d' : Z) :
  is_digit d = true -> is_digit d' = true -> d <> d' ->
  (isValid (VString (p ++ d :: q)) = Return true ->
   isValid (VString (p ++ d' :: q)) = Return false)
  /\ (forall spec,
        wf_structure (Specification.structure spec) = true ->
        Specification.structure spec <> [] ->
        normalized p -> normalized q ->
        Specification.isValid spec (p ++ d :: q) = Return true ->
        Specification.isValid spec (p ++ d' :: q) = Return false).
Proof.
  intros Hd Hd' Hne; split.
  - intros Hv; apply isValid_inv in Hv; destruct Hv as (spec & G & Hv).
    rewrite electronicFormat_app, electronicFormat_digit in G, Hv by exact Hd.
    pose proof (COUNTRIES_get_key _ _ G) as K.
    pose proof (COUNTRIES_get_wf _ _ G) as W.
    destruct (COUNTRIES_get_own _ _ G) as [Hwf Hb].
    assert (C : wf_countryCode
                  (slice 0 (Some 2)
                     (electronicFormat p ++ d :: electronicFormat q)) = true).
    { rewrite <- K; unfold wf_specification in W.
      rewrite !andb_true_iff in W; tauto. }
    rewrite (isValid_own _ spec).
    + rewrite electronicFormat_app, electronicFormat_digit by exact Hd'.
      apply (Specification_isValid_one_digit spec Hwf Hb _ _ d d');
        auto using electronicFormat_normalized.
    + rewrite electronicFormat_app, electronicFormat_digit by exact Hd'.
      rewrite (country_code_before_digit _ _ d Hd C); exact G.
  - intros spec Hwf Hb Hp Hq.
    apply (Specification_isValid_one_digit spec Hwf Hb); assumption.
Qed.

Lemma isValid_detects_a_changed_digit_witness :
  isValid (VString (js "BE68 5390 0754 7034")) = Return true
  /\ isValid (VString (js "BE68 5390 0754 7934")) = Return false.
Proof.
  assert (V : isValid (VString (js "BE68 5390 0754 7" ++ 48 :: js "34"))
              = Return true) by (vm_compute; reflexivity).
  split; [exact V|].
  exact (proj1 (isValid_detects_a_changed_digit
                  (js "BE68 5390 0754 7") (js "34") 48 57
                  eq_refl eq_refl ltac:(discriminate)) V).
Defined.

(** X14: the checksum detects the exchange of two different digits that
    follow each other in the BBAN.  If a string is a valid IBAN, in
    whatever formatting, and two adjacent, different digits after its
    first four letters and digits are exchanged, [isValid] rejects the
    result: the two prepared numbers differ by nine times the difference
    of the digits times a power of ten, and 9 and 10 are units modulo
    97.  The same holds for [Specification.isValid] of every
    specification whose descriptor is well formed. *)
Theorem isValid_detects_exchanged_digits (p q : jsstring) (a b : Z) :
  is_digit a = true -> is_digit b = true -> a <> b ->
  (4 <= List.length (electronicFormat p))%nat ->
  (isValid (VString (p ++ a :: b :: q)) = Return true ->
   isValid (VString (p ++ b :: a :: q)) = Return false)
  /\ (forall spec,
        wf_structure (Specification.structure spec) = true ->
        Specification.structure spec <> [] ->
        normalized p -> normalized q ->
        Specification.isValid spec (p ++ a :: b :: q) = Return true ->
        Specification.isValid spec (p ++ b :: a :: q) = Return false).
Proof.
  intros Ha Hb Hne L; split.
  - intros Hv; apply isValid_inv in Hv; destruct Hv as (spec & G & Hv).
    rewrite electronicFormat_app, !electronicFormat_digit in G, Hv
      by assumption.
    destruct (COUNTRIES_get_own _ _ G) as [Hwf Hbl].
    assert (S2 : forall t,
               slice 0 (Some 2) (electronicFormat p ++ t)
               = firstn 2 (electronicFormat p)).
    { intros t; change 2 with (Z.of_nat 2); rewrite slice_prefix.
      rewrite firstn_app.
      replace (2 - List.length (electronicFormat p))%nat with 0%nat by lia.
      apply app_nil_r. }
    rewrite S2 in G.
    rewrite (isValid_own _ spec).
    + rewrite electronicFormat_app, !electronicFormat_digit by assumption.
      apply (Specification_isValid_exchange spec Hwf Hbl _ _ a b);
        auto using electronicFormat_normalized.
    + rewrite electronicFormat_app, !electronicFormat_digit by assumption.
      rewrite S2; exact G.
  - intros spec Hwf Hbl Hp Hq.
    assert (L' : (4 <= List.length p)%nat)
      by (rewrite (electronicFormat_fixes_normalized p Hp) in L; exact L).
    apply (Specification_isValid_exchange spec Hwf Hbl); assumption.
Qed.

Lemma isValid_detects_exchanged_digits_witness :
  isValid (VString (js "BE68 5390 0754 7034")) = Return true
  /\ isValid (VString (js "BE68 5390 0754 7304")) = Return false.
Proof.
  assert (V : isValid (VString (js "BE68 5390 0754 7" ++ 48 :: 51 :: js "4"))
              = Return true) by (vm_compute; reflexivity).
  assert (L : (4 <= List.length (electronicFormat (js "BE68 5390 0754 7")))%nat)
    by (vm_compute; lia).
  split; [exact V|].
  exact (proj1 (isValid_detects_exchanged_digits
                  (js "BE68 5390 0754 7") (js "4") 48 51
                  eq_refl eq_refl ltac:(discriminate) L) V).
Defined.

(** ** The predicates on the table *)

Lemma iso13616Prepare_length_ge (s : jsstring) :
  normalized s -> (List.length s <= List.length (iso13616Prepare s))%nat.
Proof.
  intros H; rewrite iso13616Prepare_flat_map, toUpperCase_normalized by auto.
  rewrite flat_map_numeric_length, length_app.
  rewrite <- (firstn_skipn 4 s) at 1; rewrite length_app; lia.
Qed.

Lemma reduction_of_prepared (e : jsstring) :
  normalized e -> e <> [] ->
  iso7064Mod9710 (iso13616Prepare e)
  = Return (Num (decimal_value (iso13616Prepare e) mod 97)).
Proof.
  intros Hn Hne; apply iso7064Mod9710_digits.
  - apply iso13616Prepare_digits, Hn.
  - intros E; pose proof (iso13616Prepare_length_ge e Hn) as L.
    rewrite E in L; destruct e; [congruence | cbn in L; lia].
Qed.

(** X15: [isValid] returns a boolean on every value, [false] on every
    value that is not a string.  On a string whose electronic format is
    [e] it returns [true] exactly when the table has an entry under the
    first two characters of [e] such that [e] has the length declared by
    the entry, the part of [e] from offset 4 fits the blocks of the
    entry's structure, and the number written by the prepared [e] leaves
    the remainder 1 on division by 97; it returns [false] otherwise. *)
Theorem isValid_characterized :
  (forall v, isString v = false -> isValid v = Return false)
  /\ forall x,
       let e := electronicFormat x in
       let valid :=
         exists spec,
           In (slice 0 (Some 2) e, spec) COUNTRIES
           /\ len e = Specification.length spec
           /\ fits (blocks (Specification.structure spec)) (slice 4 None e)
              = true
           /\ decimal_value (iso13616Prepare e) mod 97 = 1 in
       (isValid (VString x) = Return true <-> valid)
       /\ (isValid (VString x) = Return false <-> ~ valid).
Proof.
  split; [intros v H; unfold isValid; rewrite H; reflexivity|].
  intros x e valid.
  assert (T : isValid (VString x) = Return true <-> valid).
  { subst valid; split.
    - intros H; apply isValid_inv in H; destruct H as (spec & G & Hv).
      fold e in G, Hv; exists spec.
      destruct (COUNTRIES_get_own _ _ G) as [Hwf Hb].
      apply (isValid_true spec Hwf Hb) in Hv.
      destruct Hv as (L & _ & F & M).
      pose proof (registered_length _ _ (proj1 (COUNTRIES_get_In _ _) G)) as R.
      split; [apply COUNTRIES_get_In, G|].
      split; [auto|]. split; [exact F|].
      rewrite reduction_of_prepared in M.
      + inversion M; reflexivity.
      + apply electronicFormat_normalized.
      + intros E; rewrite E in L; cbn in L; lia.
    - intros (spec & I & L & F & M).
      pose proof (registered_length _ _ I) as R.
      apply COUNTRIES_get_In in I.
      destruct (COUNTRIES_get_own _ _ I) as [Hwf Hb].
      rewrite (isValid_own _ _ I); fold e.
      apply (isValid_true spec Hwf Hb).
      split; [auto|]. split; [apply COUNTRIES_get_key, I|].
      split; [exact F|].
      rewrite reduction_of_prepared, M; [reflexivity | |].
      + apply electronicFormat_normalized.
      + intros E; rewrite E in L; cbn in L; lia. }
  split; [exact T|].
  destruct (isValid_returns (VString x)) as [[|] E]; rewrite E in *.
  - split; [discriminate|]. intros N; exfalso; apply N, T; reflexivity.
  - split; [|reflexivity]. intros _ V; apply T in V; discriminate.
Qed.

Lemma isValid_characterized_witness :
  isValid (VNumber (Num 1)) = Return false
  /\ isValid (VString (js "BE68 5390 0754 7034")) = Return true.
Proof.
  split; [apply (proj1 isValid_characterized); reflexivity|].
  pose proof (proj2 isValid_characterized (js "BE68 5390 0754 7034")) as H.
  cbv zeta in H; destruct H as [T _]; apply T.
  exists Belgium; split; [apply COUNTRIES_get_In; vm_compute; reflexivity|].
  split; [reflexivity|]; split; reflexivity.
Defined.

(** X16: for a country code of the table, [isValidBBAN] of a string
    tests that the electronic format of the string fits the blocks of
    the country's structure, and nothing else: the check digits play no
    part.  A string that passes has, in electronic format, the declared
    length less 4. *)
Theorem isValidBBAN_fits_the_blocks (countryCode bban : jsstring) spec :
  In (countryCode, spec) COUNTRIES ->
  isValidBBAN countryCode (VString bban)
  = Return (fits (blocks (Specification.structure spec))
              (electronicFormat bban))
  /\ (isValidBBAN countryCode (VString bban) = Return true ->
      len (electronicFormat bban) = Specification.length spec - 4).
Proof.
  intros I; pose proof (registered_facts _ _ I) as (_ & _ & S).
  apply COUNTRIES_get_In in I.
  destruct (COUNTRIES_get_own _ _ I) as [Hwf Hb].
  split.
  - rewrite (isValidBBAN_own _ _ _ I).
    apply Specification_isValidBBAN_fits; assumption.
  - rewrite (isValidBBAN_own _ _ _ I); intros H.
    apply (isValidBBAN_true spec Hwf Hb) in H; symmetry; tauto.
Qed.

Lemma isValidBBAN_fits_the_blocks_witness :
  isValidBBAN (js "BE") (VString (js "5390 0754 7034")) = Return true
  /\ len (js "539007547034") = 16 - 4.
Proof.
  destruct (isValidBBAN_fits_the_blocks (js "BE") (js "5390 0754 7034")
              Belgium) as (E & L).
  - apply COUNTRIES_get_In; vm_compute; reflexivity.
  - split; [rewrite E; reflexivity | reflexivity].
Defined.
